(** * gosam, monocryst.py: the lattice catalog and the oriented periodic
      box filler

    A shallow embedding of [monocryst.py].  The file follows the source from
    top to bottom: the lattice factories, [OrthorhombicPbcModel],
    [RotatedMonocrystal], the driver [mono], the lookup
    [get_named_lattice] and the command line entry [main].

    - Numbers.  Python floats are kept abstract behind the interface
      [Scalar]; the embedding is written once and instantiated at IEEE
      binary64 ([float_scalar], Rocq's primitive floats) and at exact
      rationals ([Q_scalar]).
    - Objects.  The only object the code mutates through an alias is the
      unit cell ([UnitCell.rotate]); unit cells live in a store, lattices
      and models hold references into it.
    - Errors.  Python exceptions are values of [Py.exn]; a computation
      returns [Py.Ok] or [Py.Raise] together with the store it leaves.
    - Collaborators.  [latt], [graingen], [mdprim], [rotmat] and [utils]
      are other modules of gosam; what [monocryst.py] calls in them is
      gathered in the interface [Collab].
    - Left out.  Console output ([print]) is not modelled.  The
      experiment [test_rotmono_adjust] (trigonometry, and a module that is
      never imported) is not embedded.  [main] is embedded from the parsed
      command line on and up to the export. *)

From Stdlib Require Import ZArith QArith Qround Lqa Lia List String Ascii Bool.
From Stdlib Require Import Floats.PrimFloat Floats.FloatOps Floats.SpecFloat.
From Stdlib Require Import Floats.FloatAxioms.
From Stdlib Require Import Numbers.Cyclic.Int63.Uint63.
From Stdlib Require Import DecimalString.
From stdpp Require Import gmap.

Import ListNotations.
Local Open Scope string_scope.
Local Open Scope list_scope.

(* ===================================================================== *)
(** * Python values, strings and exceptions                               *)
(* ===================================================================== *)

Module Py.

(** What [SystemExit] carries: nothing ([sys.exit()]), an exit status
    ([parser.error] of [optparse] exits with status 2 after it has written
    its text to the standard error stream), or a text ([sys.exit(msg)]). *)
Inductive exit_code : Type :=
| ExitNone
| ExitStatus (status : Z)
| ExitText (msg : string).

Coercion ExitText : string >-> exit_code.

(** The exceptions [monocryst.py] can raise itself ([assert], [raise
    ValueError], [sys.exit], [parser.error], indexing an empty string or an
    empty list, dividing by the length of an empty string) and one
    constructor for whatever a collaborator raises. *)
Inductive exn : Type :=
| AssertionError
| ValueError (msg : string)
| SystemExit (code : exit_code)
| IndexError
| ZeroDivisionError
| ForeignError (msg : string).

Inductive result (A : Type) : Type :=
| Ok (a : A)
| Raise (e : exn).

Arguments Ok {A} a.
Arguments Raise {A} e.

(** ** Text

    A Python [str] is a sequence of code points; it is kept here as the
    bytes of its UTF-8 encoding, which is how a literal is written.
    Comparison, concatenation, [startswith], [endswith] and [in] are the
    same on the code points and on the bytes; [len], [s[0]] and [s[n:]]
    count code points. *)

(** The number of bytes of the code point that starts with the byte [c]
    (a byte that starts none counts as one). *)
Definition width (c : ascii) : nat :=
  let n := nat_of_ascii c in
  if (n <? 192)%nat then 1%nat
  else if (n <? 224)%nat then 2%nat
  else if (n <? 240)%nat then 3%nat
  else 4%nat.

(** A byte inside a code point, after its first byte. *)
Definition is_continuation (c : ascii) : bool :=
  let n := nat_of_ascii c in ((128 <=? n) && (n <? 192))%nat.

(** [len(s)] *)
Fixpoint len (s : string) : nat :=
  match s with
  | EmptyString => 0%nat
  | String c r => if is_continuation c then len r else Datatypes.S (len r)
  end.

(** The string without its first [n] bytes. *)
Fixpoint skip (n : nat) (s : string) : string :=
  match n, s with
  | O, _ => s
  | Datatypes.S _, EmptyString => EmptyString
  | Datatypes.S k, String _ r => skip k r
  end.

(** [s[0]] for the string [String c rest]: the code point that starts with
    [c]. *)
Definition char0 (c : ascii) (rest : string) : string :=
  String c (substring 0 (width c - 1) rest).

(** [s[n:]] *)
Fixpoint slice_from (n : nat) (s : string) : string :=
  match n, s with
  | O, _ => s
  | Datatypes.S _, EmptyString => EmptyString
  | Datatypes.S k, String c r => slice_from k (skip (width c - 1) r)
  end.

(** [s.startswith(p)] *)
Definition startswith (s p : string) : bool := String.prefix p s.

(** [s.endswith(suffix)] *)
Definition endswith (s suffix : string) : bool :=
  let n := String.length s in
  let k := String.length suffix in
  if (k <=? n)%nat then String.eqb (substring (n - k) k s) suffix else false.

(** [sub in s] *)
Fixpoint str_in (sub s : string) : bool :=
  String.prefix sub s ||
  match s with
  | EmptyString => false
  | String _ r => str_in sub r
  end.

(** The double quote character, as a string. *)
Definition dquote : string := String (ascii_of_nat 34) EmptyString.

(** ["...%s" % name] with a single [%s] at the end of the format. *)
Definition format_s (prefix arg : string) : string := prefix ++ arg.

(** [str.lower] is Unicode-aware: which letters it maps, and to what, is
    the character database of the interpreter.  The function is a
    parameter of the model. *)
Class Unicode : Type := {
  lower : string -> string
}.

(** The two facts about [str.lower] the lookup relies on.  It maps code
    point by code point, and what it yields has no cased letter left that
    it would map again; [.], [c], [i] and [f] are mapped to themselves
    wherever they stand. *)
Class UnicodeLaws {U : Unicode} : Prop := {
  lower_idem : forall s, lower (lower s) = lower s;
  endswith_cif_lower :
    forall s, endswith s ".cif" = true -> endswith (lower s) ".cif" = true
}.

(** [str.lower] on text whose cased letters are in the blocks Basic Latin
    and Latin-1 Supplement: the letters A..Z, and the code points U+00C0
    to U+00DE but U+00D7 (the bytes C3 80 to C3 9E but C3 97), are moved up
    by 32; every other byte is kept. *)
Definition lower_byte (after_c3 : bool) (c : ascii) : ascii :=
  let n := nat_of_ascii c in
  if ((65 <=? n) && (n <=? 90))%nat then ascii_of_nat (n + 32)
  else if after_c3 && ((128 <=? n) && (n <=? 158) && negb (n =? 151))%nat
       then ascii_of_nat (n + 32)
  else c.

Fixpoint lower_from (after_c3 : bool) (s : string) : string :=
  match s with
  | EmptyString => EmptyString
  | String c r =>
      String (lower_byte after_c3 c) (lower_from (nat_of_ascii c =? 195)%nat r)
  end.

Definition latin_lower (s : string) : string := lower_from false s.

End Py.

Import Py.

#[export] Instance latin_unicode : Unicode := {| lower := latin_lower |}.

(* ===================================================================== *)
(** * Scalars                                                             *)
(* ===================================================================== *)

(** What the code does with a float: literals, the four operations,
    negation, the three comparisons, and [floor]/[ceil] to an integer (the
    last two only inside the replica enumeration). *)
Class Scalar (F : Type) : Type := {
  lit : Q -> F;
  fadd : F -> F -> F;
  fsub : F -> F -> F;
  fmul : F -> F -> F;
  fdiv : F -> F -> F;
  fneg : F -> F;
  fltb : F -> F -> bool;
  fleb : F -> F -> bool;
  feqb : F -> F -> bool;
  ffloor : F -> Z;
  fceil : F -> Z
}.

Arguments lit {F _} q%_Q.

Declare Scope scalar_scope.
Delimit Scope scalar_scope with F.
Infix "+" := fadd : scalar_scope.
Infix "-" := fsub : scalar_scope.
Infix "*" := fmul : scalar_scope.
Infix "/" := fdiv : scalar_scope.
Notation "- x" := (fneg x) : scalar_scope.
Infix "<?" := fltb : scalar_scope.
Infix "<=?" := fleb : scalar_scope.
Infix "=?" := feqb : scalar_scope.

(** ** Exact rationals *)

#[export] Instance Q_scalar : Scalar Q := {|
  lit := fun q => q;
  fadd := Qplus;
  fsub := Qminus;
  fmul := Qmult;
  fdiv := Qdiv;
  fneg := Qopp;
  fltb := fun x y => negb (Qle_bool y x);
  fleb := Qle_bool;
  feqb := Qeq_bool;
  ffloor := Qfloor;
  fceil := Qceiling
|}.

(** ** IEEE binary64 *)

Definition float_of_Z (z : Z) : float :=
  match z with
  | Z0 => PrimFloat.zero
  | Zpos _ => PrimFloat.of_uint63 (Uint63.of_Z z)
  | Zneg p => PrimFloat.opp (PrimFloat.of_uint63 (Uint63.of_Z (Zpos p)))
  end.

(** A decimal literal [n / 10^k] is the correctly rounded quotient of two
    integers that binary64 represents exactly (all literals of the source
    have [n < 2^53] and [k <= 7]), which is the float Python reads. *)
Definition float_lit (q : Q) : float :=
  PrimFloat.div (float_of_Z (Qnum q)) (float_of_Z (Zpos (Qden q))).

(** [math.floor] of a finite float, through its sign, mantissa and
    exponent: [m * 2^e] rounded towards minus infinity.  Infinities and
    NaN, on which Python raises, are sent to 0. *)
Definition float_floor (x : float) : Z :=
  match Prim2SF x with
  | S754_finite s m e => Z.shiftl (if s then Zneg m else Zpos m) e
  | _ => 0%Z
  end.

Definition float_ceil (x : float) : Z := (- float_floor (PrimFloat.opp x))%Z.

#[export] Instance float_scalar : Scalar float := {|
  lit := float_lit;
  fadd := PrimFloat.add;
  fsub := PrimFloat.sub;
  fmul := PrimFloat.mul;
  fdiv := PrimFloat.div;
  fneg := PrimFloat.opp;
  fltb := PrimFloat.ltb;
  fleb := PrimFloat.leb;
  feqb := PrimFloat.eqb;
  ffloor := float_floor;
  fceil := float_ceil
|}.

(** ** What the comparisons obey

    The laws of the comparisons and of adding zero that the properties on
    the order of coordinates use.  [x =? x] is false for a NaN only, so
    [(x =? x) = true] says that [x] is a number.  Both instances obey them
    (shown with the properties, below); no law speaks of rounding. *)
Class ScalarOrder (F : Type) `{Scalar F} : Prop := {
  feqb_zero : (lit 0 =? lit 0)%F = true;
  feqb_number : forall x y : F,
    (x =? y)%F = true -> (x =? x)%F = true /\ (y =? y)%F = true;
  fltb_number : forall x y : F,
    (x <? y)%F = true -> (x =? x)%F = true /\ (y =? y)%F = true;
  fleb_number : forall x y : F,
    (x <=? y)%F = true -> (x =? x)%F = true /\ (y =? y)%F = true;
  fleb_refl : forall x : F, (x =? x)%F = true -> (x <=? x)%F = true;
  fltb_fleb : forall x y : F, (x <? y)%F = true -> (x <=? y)%F = true;
  fleb_total : forall x y : F,
    (x =? x)%F = true -> (y =? y)%F = true ->
    (x <? y)%F = false -> (y <=? x)%F = true;
  fltb_total : forall x y : F,
    (x =? x)%F = true -> (y =? y)%F = true ->
    (x <=? y)%F = false -> (y <? x)%F = true;
  fleb_trans : forall x y z : F,
    (x <=? y)%F = true -> (y <=? z)%F = true -> (x <=? z)%F = true;
  fleb_fltb_trans : forall x y z : F,
    (x <=? y)%F = true -> (y <? z)%F = true -> (x <? z)%F = true;
  fltb_fleb_false : forall x y : F,
    (x <? y)%F = true -> (y <=? x)%F = true -> False;
  fadd_zero : forall x : F,
    (x =? x)%F = true -> (x + lit 0 =? x)%F = true
}.

(* ===================================================================== *)
(** * numpy: 3-vectors and 3x3 matrices                                   *)
(* ===================================================================== *)

Section Numpy.
Context {F : Type} `{Scalar F}.

Record vec : Type := V3 { v0 : F; v1 : F; v2 : F }.

(** A matrix is the triple of its rows. *)
Record mat : Type := M3 { r0 : vec; r1 : vec; r2 : vec }.

Definition vmap (f : F -> F) (v : vec) : vec :=
  V3 (f (v0 v)) (f (v1 v)) (f (v2 v)).

Definition vzip (f : F -> F -> F) (u v : vec) : vec :=
  V3 (f (v0 u) (v0 v)) (f (v1 u) (v1 v)) (f (v2 u) (v2 v)).

(** [u + v] *)
Definition vadd (u v : vec) : vec := vzip fadd u v.

(** [v[2] = x] *)
Definition set2 (v : vec) (x : F) : vec := V3 (v0 v) (v1 v) x.

(** [list(v)] *)
Definition vlist (v : vec) : list F := [v0 v; v1 v; v2 v].

(** [(u < v).all()] and [(u <= v).all()] *)
Definition all_lt (u v : vec) : bool :=
  (v0 u <? v0 v)%F && (v1 u <? v1 v)%F && (v2 u <? v2 v)%F.

Definition all_le (u v : vec) : bool :=
  (v0 u <=? v0 v)%F && (v1 u <=? v1 v)%F && (v2 u <=? v2 v)%F.

Definition col (m : mat) (j : vec -> F) : vec :=
  V3 (j (r0 m)) (j (r1 m)) (j (r2 m)).

Definition transpose (m : mat) : mat := M3 (col m v0) (col m v1) (col m v2).

(** The inner product, summed from the first component on. *)
Definition inner (u v : vec) : F :=
  (v0 u * v0 v + v1 u * v1 v + v2 u * v2 v)%F.

(** [dot(v, m)]: component [j] is the inner product of [v] with column [j]. *)
Definition dot_vm (v : vec) (m : mat) : vec :=
  V3 (inner v (col m v0)) (inner v (col m v1)) (inner v (col m v2)).

(** [dot(a, b)] for two matrices, row by row. *)
Definition dot_mm (a b : mat) : mat :=
  M3 (dot_vm (r0 a) b) (dot_vm (r1 a) b) (dot_vm (r2 a) b).

(** [identity(3)] *)
Definition identity3 : mat :=
  let o := lit 0 in let i := lit 1 in
  M3 (V3 i o o) (V3 o i o) (V3 o o i).

(** [m * d] with [d] broadcast along the rows. *)
Definition mul_rows (m : mat) (d : vec) : mat :=
  M3 (vzip fmul (r0 m) d) (vzip fmul (r1 m) d) (vzip fmul (r2 m) d).

End Numpy.

Arguments vec F : clear implicits.
Arguments mat F : clear implicits.

(* ===================================================================== *)
(** * Computations: store, exceptions                                     *)
(* ===================================================================== *)

(** A computation over a state [S] returns a value or raises, and leaves a
    state in both cases: what was mutated before an exception stays
    mutated. *)
Definition ST (S A : Type) : Type := S -> result A * S.

Definition ret {S A} (a : A) : ST S A := fun s => (Ok a, s).

Definition raise {S A} (e : exn) : ST S A := fun s => (Raise e, s).

Definition bind {S A B} (c : ST S A) (k : A -> ST S B) : ST S B :=
  fun s =>
    match c s with
    | (Ok a, s') => k a s'
    | (Raise e, s') => (Raise e, s')
    end.

Definition get {S} : ST S S := fun s => (Ok s, s).

Definition modify {S} (f : S -> S) : ST S unit := fun s => (Ok tt, f s).

(** [assert b] *)
Definition assert {S} (b : bool) : ST S unit :=
  if b then ret tt else raise AssertionError.

(** A value or an exception computed without the state. *)
Definition lift_result {S A} (r : result A) : ST S A :=
  match r with
  | Ok a => ret a
  | Raise e => raise e
  end.

Notation "'do' x <- c ; k" := (bind c (fun x => k))
  (at level 10, x name, c at level 100, k at level 200).
Notation "'do' ' p <- c ; k" := (bind c (fun x => match x with p => k end))
  (at level 10, p pattern, c at level 100, k at level 200).
Notation "'run' c ; k" := (bind c (fun _ => k))
  (at level 10, c at level 100, k at level 200).

(** References to unit cells. *)
Abbreviation loc := positive (only parsing).

(* ===================================================================== *)
(** * The data model                                                      *)
(* ===================================================================== *)

Module latt.

(** Modelled from the spec: [latt.AtomInNode] and [latt.Node] are not in
    [monocryst.py].  An atom in a node is a species symbol with a
    fractional offset from the node; a node is a fractional position in the
    unit cell with an ordered sequence of atoms. *)
Record AtomInNode (F : Type) : Type := mkAtomInNode {
  name : string;
  pos : vec F
}.

Record Node (F : Type) : Type := mkNode {
  pos_in_cell : vec F;
  atoms_in_node : list (AtomInNode F)
}.

(** Modelled from the spec: [latt.CrystalLattice] (and its alias in
    [graingen]) owns one unit cell and an ordered sequence of nodes.  The
    unit cell is an object of its own, held by reference. *)
Record CrystalLattice (F : Type) : Type := mkCrystalLattice {
  unit_cell : loc;
  nodes : list (Node F)
}.

Arguments mkAtomInNode {F}.
Arguments name {F}.
Arguments pos {F}.
Arguments mkNode {F}.
Arguments pos_in_cell {F}.
Arguments atoms_in_node {F}.
Arguments mkCrystalLattice {F}.
Arguments unit_cell {F}.
Arguments nodes {F}.

End latt.

Module mdprim.

(** Modelled from the spec: [mdprim.Atom], the output value, is a species
    symbol with an absolute position. *)
Record Atom (F : Type) : Type := mkAtom {
  name : string;
  pos : vec F
}.

Arguments mkAtom {F}.
Arguments name {F}.
Arguments pos {F}.

End mdprim.

(** What [gemmi.read_atomic_structure] hands over: the six cell
    parameters and the sites of the unit cell, each a symbol with
    fractional coordinates. *)
Record CifStructure (F : Type) : Type := mkCif {
  cif_a : F; cif_b : F; cif_c : F;
  cif_alpha : F; cif_beta : F; cif_gamma : F;
  cif_sites : list (string * vec F)
}.

Arguments mkCif {F}.
Arguments cif_a {F}.
Arguments cif_b {F}.
Arguments cif_c {F}.
Arguments cif_alpha {F}.
Arguments cif_beta {F}.
Arguments cif_gamma {F}.
Arguments cif_sites {F}.

(* ===================================================================== *)
(** * The collaborators                                                   *)
(* ===================================================================== *)

(** Everything [monocryst.py] calls in [latt], [graingen], [rotmat],
    [utils] and [gemmi].  None of it is in the source file; the embedding
    below is written against this interface. *)
Class Collab (F : Type) : Type := {
  (** [latt]: the unit cell, its constructors and its methods *)
  UnitCell : Type;
  new_UnitCell : F -> F -> F -> F -> F -> F -> string -> result UnitCell;
  CubicUnitCell : F -> result UnitCell;
  TetragonalUnitCell : F -> F -> result UnitCell;
  OrthorhombicUnitCell : F -> F -> F -> result UnitCell;
  HexagonalUnitCell : F -> F -> result UnitCell;
  M_1 : UnitCell -> mat F;
  rotate : UnitCell -> mat F -> UnitCell;
  get_orthorhombic_supercell : UnitCell -> vec F;
  latt_generate_polytype :
    F -> F -> string -> result (UnitCell * list (vec F));
  (** [graingen]: the node tables, the polytype generator, and the replica
      enumeration of [FreshModel] *)
  simple_nodes : list (vec F);
  fcc_nodes : list (vec F);
  bcc_nodes : list (vec F);
  hcp_nodes : list (vec F);
  graingen_generate_polytype :
    F -> F -> string -> result (UnitCell * list (vec F));
  Scope : Type;
  compute_scope : UnitCell -> list (latt.Node F) -> list (vec F) -> Scope;
  get_all_nodes : Scope -> list (latt.Node F) -> list (latt.Node F * vec F);
  (** [rotmat], [utils] *)
  round_to_multiplicity : F -> F -> F;
  get_command_line : string;
  (** [gemmi]: whether the import succeeds, and the reader *)
  gemmi_installed : bool;
  read_atomic_structure : string -> result (CifStructure F)
}.

(** The store holds the unit cells. *)
Abbreviation store := (gmap loc UnitCell) (only parsing).

Section Store.
Context {F : Type} `{Scalar F} `{Collab F}.

(** A new object in the store. *)
Definition new (c : UnitCell) : ST store loc :=
  fun s : store => let l := fresh (dom s) in (Ok l, <[l := c]> s).

(** [latt.CubicUnitCell(a)] and the like: the constructor of the
    collaborator runs (and may raise), and the cell it builds is a new
    object. *)
Definition construct (r : result UnitCell) : ST store loc :=
  do c <- lift_result r;
  new c.

(** Reading through a reference.  [DanglingRef] is no Python exception: it
    marks a reference the store does not hold, which no run that starts
    from objects built by the factories reaches. *)
Definition DanglingRef : exn := ForeignError "dangling reference".

Definition load (l : loc) : ST store UnitCell :=
  fun s : store =>
    match s !! l with
    | Some c => (Ok c, s)
    | None => (Raise DanglingRef, s)
    end.

(** [copy.deepcopy(lattice)]: a new lattice with a unit cell of its own. *)
Definition deepcopy (lattice : latt.CrystalLattice F)
  : ST store (latt.CrystalLattice F) :=
  do c <- load (latt.unit_cell lattice);
  do l <- new c;
  ret (latt.mkCrystalLattice l (latt.nodes lattice)).

End Store.

(* ===================================================================== *)
(** * monocryst.py                                                        *)
(* ===================================================================== *)

Section Monocryst.
Context {F : Type} `{Scalar F} `{Collab F} {U : Unicode}.

(** ** Python objects passed as [upper] *)

Inductive object : Type :=
| None_
| Bool_ (b : bool)
| Int_ (z : Z)
| Float_ (x : F)
| Str_ (s : string).

(** [x is True], [x is False], [x is None]: identity with the singleton. *)
Definition is_True (x : object) : bool :=
  match x with Bool_ true => true | _ => false end.

Definition is_False (x : object) : bool :=
  match x with Bool_ false => true | _ => false end.

Definition is_None (x : object) : bool :=
  match x with None_ => true | _ => false end.

(** [x == y].  [bool] is a subclass of [int]: [True == 1] and
    [False == 0], and numbers compare by value across [int] and [float]. *)
Definition Z_of_bool (b : bool) : Z := if b then 1%Z else 0%Z.

Definition py_eq (x y : object) : bool :=
  match x, y with
  | None_, None_ => true
  | Bool_ a, Bool_ b => Z.eqb (Z_of_bool a) (Z_of_bool b)
  | Bool_ a, Int_ z | Int_ z, Bool_ a => Z.eqb (Z_of_bool a) z
  | Int_ a, Int_ b => Z.eqb a b
  | Bool_ a, Float_ u | Float_ u, Bool_ a => (lit (Z_of_bool a # 1) =? u)%F
  | Int_ a, Float_ u | Float_ u, Int_ a => (lit (a # 1) =? u)%F
  | Float_ u, Float_ v => (u =? v)%F
  | Str_ s, Str_ t => String.eqb s t
  | _, _ => false
  end.

(** [x in t] for a tuple [t]: some element is [x] itself or equals [x].
    For the three singletons identity implies equality, so the test is
    [==] alone. *)
Definition py_in (x : object) (t : list object) : bool :=
  existsb (fun e => py_eq x e) t.

(** [bool(z)] for a float: everything but zero is true. *)
Definition truthy (z : F) : bool := negb (z =? lit 0)%F.

(** ** The lattice factories *)

(** One entry [(symbol, x, y, z)] of a [node_atoms] list. *)
Definition atom_tuple : Type := (string * F * F * F)%type.

Definition AtomInNode_of_tuple (t : atom_tuple) : latt.AtomInNode F :=
  let '(s, x, y, z) := t in latt.mkAtomInNode s (V3 x y z).

(** Modelled from the spec: [latt.Node(pos, atoms)] keeps the position and
    turns each tuple of [atoms] into an [AtomInNode]. *)
Definition latt_Node (p : vec F) (node_atoms : list atom_tuple)
  : latt.Node F :=
  latt.mkNode p (map AtomInNode_of_tuple node_atoms).

(** [symbols[i]]; every use is guarded by the assertion on
    [len(symbols)]. *)
Definition sym (symbols : list string) (i : nat) : string :=
  nth i symbols EmptyString.

(** [s[0]] for a string [s]. *)
Definition first_char {S} (s : string) : ST S string :=
  match s with
  | EmptyString => raise IndexError
  | String c rest => ret (char0 c rest)
  end.

(** [x / len(s)] *)
Definition div_len {S} (x : F) (s : string) : ST S F :=
  match len s with
  | O => raise ZeroDivisionError
  | n => ret (x / lit (Z.of_nat n # 1))%F
  end.

Definition get_diamond_node_pos : list (vec F) :=
  flat_map
    (fun i => [i; V3 (v0 i + lit 0.25)%F (v1 i + lit 0.25)%F
                     (v2 i + lit 0.25)%F])
    fcc_nodes.

Definition make_lattice (cell : loc) (node_pos : list (vec F))
  (node_atoms : list atom_tuple) : latt.CrystalLattice F :=
  let nodes := map (fun i => latt_Node i node_atoms) node_pos in
  latt.mkCrystalLattice cell nodes.

Definition make_simple_cubic_lattice (symbol : string) (a : F)
  : ST store (latt.CrystalLattice F) :=
  do cell <- construct (CubicUnitCell a);
  let node := latt_Node (V3 (lit 0) (lit 0) (lit 0))
                [(symbol, lit 0, lit 0, lit 0)] in
  ret (latt.mkCrystalLattice cell [node]).

Definition make_fcc_lattice (symbol : string) (a : F)
  : ST store (latt.CrystalLattice F) :=
  do cell <- construct (CubicUnitCell a);
  let node_pos := fcc_nodes in
  let node_atoms := [(symbol, lit 0, lit 0, lit 0)] in
  ret (make_lattice cell node_pos node_atoms).

Definition make_bcc_lattice (symbol : string) (a : F)
  : ST store (latt.CrystalLattice F) :=
  do cell <- construct (CubicUnitCell a);
  let node_pos := bcc_nodes in
  let node_atoms := [(symbol, lit 0, lit 0, lit 0)] in
  ret (make_lattice cell node_pos node_atoms).

Definition make_hcp_lattice (symbol : string) (a c : F)
  : ST store (latt.CrystalLattice F) :=
  do cell <- construct (HexagonalUnitCell a c);
  let node_pos := hcp_nodes in
  let node_atoms :=
    [(symbol, lit 0.5, lit (-0.866), lit 0.25);
     (symbol, lit 0.5, lit 0.866, lit 0.75)] in
  ret (make_lattice cell node_pos node_atoms).

Definition make_zincblende_lattice (symbols : list string) (a : F)
  : ST store (latt.CrystalLattice F) :=
  run assert (length symbols =? 2)%nat;
  do cell <- construct (CubicUnitCell a);
  let node_pos := fcc_nodes in
  let node_atoms :=
    [(sym symbols 0, lit 0, lit 0, lit 0);
     (sym symbols 1, lit 0.25, lit 0.25, lit 0.25)] in
  ret (make_lattice cell node_pos node_atoms).

Definition make_zincblende2_lattice (symbols : list string) (a : F)
  : ST store (latt.CrystalLattice F) :=
  run assert (length symbols =? 2)%nat;
  do cell <- construct (CubicUnitCell a);
  let node_pos := fcc_nodes in
  let node_atoms :=
    [(sym symbols 0, lit 0, lit 0, lit 0);
     (sym symbols 1, lit 0.25, lit 0.75, lit 0.75)] in
  ret (make_lattice cell node_pos node_atoms).

Definition make_kesterite_structure (symbols : list string) (a b c : F)
  : ST store (latt.CrystalLattice F) :=
  run assert (length symbols =? 4)%nat;
  do cell <- construct (OrthorhombicUnitCell a b c);
  let node_pos := bcc_nodes in
  let node_atoms :=
    [(sym symbols 0, lit 0, lit 0, lit 0);
     (sym symbols 1, lit 0.5, lit 0.5, lit 0);
     (sym symbols 0, lit 0, lit 0.5, lit 0.25);
     (sym symbols 2, lit 0.5, lit 0, lit 0.25);
     (sym symbols 1, lit 0, lit 0, lit 0.5);
     (sym symbols 0, lit 0.5, lit 0.5, lit 0.5);
     (sym symbols 2, lit 0, lit 0.5, lit 0.75);
     (sym symbols 0, lit 0.5, lit 0, lit 0.75);
     (sym symbols 3, lit 0.25, lit 0.25, lit 0.125);
     (sym symbols 3, lit 0.75, lit 0.75, lit 0.125);
     (sym symbols 3, lit 0.25, lit 0.75, lit 0.375);
     (sym symbols 3, lit 0.75, lit 0.25, lit 0.375);
     (sym symbols 3, lit 0.25, lit 0.25, lit 0.625);
     (sym symbols 3, lit 0.75, lit 0.75, lit 0.625);
     (sym symbols 3, lit 0.25, lit 0.75, lit 0.875);
     (sym symbols 3, lit 0.75, lit 0.25, lit 0.875)] in
  ret (make_lattice cell node_pos node_atoms).

Definition make_stannite_structure (symbols : list string) (a b c : F)
  : ST store (latt.CrystalLattice F) :=
  run assert (length symbols =? 4)%nat;
  do cell <- construct (OrthorhombicUnitCell a b c);
  let node_pos := bcc_nodes in
  let node_atoms :=
    [(sym symbols 0, lit 0, lit 0, lit 0);
     (sym symbols 0, lit 0.5, lit 0.5, lit 0);
     (sym symbols 1, lit 0, lit 0.5, lit 0.25);
     (sym symbols 2, lit 0.5, lit 0, lit 0.25);
     (sym symbols 0, lit 0, lit 0, lit 0.5);
     (sym symbols 0, lit 0.5, lit 0.5, lit 0.5);
     (sym symbols 2, lit 0, lit 0.5, lit 0.75);
     (sym symbols 1, lit 0.5, lit 0, lit 0.75);
     (sym symbols 3, lit 0.25, lit 0.25, lit 0.125);
     (sym symbols 3, lit 0.75, lit 0.75, lit 0.125);
     (sym symbols 3, lit 0.25, lit 0.75, lit 0.375);
     (sym symbols 3, lit 0.75, lit 0.25, lit 0.375);
     (sym symbols 3, lit 0.25, lit 0.25, lit 0.625);
     (sym symbols 3, lit 0.75, lit 0.75, lit 0.625);
     (sym symbols 3, lit 0.25, lit 0.75, lit 0.875);
     (sym symbols 3, lit 0.75, lit 0.25, lit 0.875)] in
  ret (make_lattice cell node_pos node_atoms).

(** [a]: hexagonal lattice parameter, [h]: distance between atomic layers,
    [polytype]: a string like "AB" or "ABCACB". *)
Definition make_sic_polytype_lattice (symbols : list string) (a h : F)
  (polytype : string) : ST store (latt.CrystalLattice F) :=
  run assert (length symbols =? 2)%nat;
  do ' (c, nodes) <- lift_result (latt_generate_polytype a h polytype);
  do cell <- new c;
  do z <- div_len (lit 0.75) polytype;
  let node_atoms :=
    [(sym symbols 0, lit 0, lit 0, lit 0);
     (sym symbols 1, lit 0, lit 0, z)] in
  ret (make_lattice cell nodes node_atoms).

Definition make_c_hexagonal_lattice (symbol : string) (a h : F)
  (polytype : string) : ST store (latt.CrystalLattice F) :=
  do ' (c, nodes) <- lift_result (graingen_generate_polytype a h polytype);
  do cell <- new c;
  do s0 <- first_char symbol;
  do s1 <- first_char symbol;
  do z <- div_len (lit 0.75) polytype;
  let node_atoms :=
    [(s0, lit 0, lit 0, lit 0);
     (s1, lit 0, lit 0, z)] in
  ret (make_lattice cell nodes node_atoms).

Definition make_mg_hexagonal_lattice (symbol : string) (a h : F)
  (polytype : string) : ST store (latt.CrystalLattice F) :=
  do ' (c, nodes) <- lift_result (graingen_generate_polytype a h polytype);
  do cell <- new c;
  do s0 <- first_char symbol;
  do s1 <- first_char symbol;
  do z <- div_len (lit 0.75) polytype;
  let node_atoms :=
    [(s0, lit 0, lit 0, lit 0);
     (s1, lit 0, lit 0, z)] in
  ret (make_lattice cell nodes node_atoms).

Definition make_diamond_lattice (symbol : string) (a : F)
  : ST store (latt.CrystalLattice F) :=
  do cell <- construct (CubicUnitCell a);
  let node_pos := get_diamond_node_pos in
  let node_atoms := [(symbol, lit 0, lit 0, lit 0)] in
  ret (make_lattice cell node_pos node_atoms).

Definition make_nbo_lattice (symbols : list string) (a : F)
  : ST store (latt.CrystalLattice F) :=
  run assert (length symbols =? 2)%nat;
  do cell <- construct (CubicUnitCell a);
  let node_pos := fcc_nodes in
  let node_atoms :=
    [(sym symbols 0, lit 0, lit 0, lit 0);
     (sym symbols 1, lit 0.5, lit 0.5, lit 0.5)] in
  ret (make_lattice cell node_pos node_atoms).

Definition make_crnb_lattice (symbols : list string) (a : F)
  : ST store (latt.CrystalLattice F) :=
  run assert (length symbols =? 2)%nat;
  do cell <- construct (CubicUnitCell a);
  let node_pos := fcc_nodes in
  let node_atoms :=
    [(sym symbols 1, lit 0.125, lit 0.125, lit 0.125);
     (sym symbols 1, lit 0.875, lit 0.875, lit 0.875);
     (sym symbols 0, lit 0.5, lit 0.5, lit 0.5);
     (sym symbols 0, lit 0.5, lit 0.25, lit 0.25);
     (sym symbols 0, lit 0.25, lit 0.5, lit 0.25);
     (sym symbols 0, lit 0.25, lit 0.25, lit 0.5)] in
  ret (make_lattice cell node_pos node_atoms).

Definition make_nacl_lattice (symbols : list string) (a : F)
  : ST store (latt.CrystalLattice F) :=
  run assert (length symbols =? 2)%nat;
  do cell <- construct (CubicUnitCell a);
  let node_pos := fcc_nodes in
  let node_atoms :=
    [(sym symbols 0, lit 0, lit 0, lit 0);
     (sym symbols 1, lit 0.5, lit 0.5, lit 0.5)] in
  ret (make_lattice cell node_pos node_atoms).

Definition make_niti_lattice (symbols : list string) (a : F)
  : ST store (latt.CrystalLattice F) :=
  run assert (length symbols =? 2)%nat;
  do cell <- construct (CubicUnitCell a);
  let node_pos := simple_nodes in
  let node_atoms :=
    [(sym symbols 0, lit 0, lit 0, lit 0);
     (sym symbols 1, lit 0.5, lit 0.5, lit 0.5)] in
  ret (make_lattice cell node_pos node_atoms).

(** TiAl L1_0 structure *)
Definition make_tial_lattice (symbols : list string) (a b c : F)
  : ST store (latt.CrystalLattice F) :=
  run assert (length symbols =? 2)%nat;
  do cell <- construct (OrthorhombicUnitCell a b c);
  let node_pos := bcc_nodes in
  let node_atoms :=
    [(sym symbols 0, lit 0, lit 0, lit 0);
     (sym symbols 1, lit 0.5, lit 0, lit 0.5)] in
  ret (make_lattice cell node_pos node_atoms).

(** body centered tetragonal *)
Definition make_bct_lattice (symbol : string) (a c : F)
  : ST store (latt.CrystalLattice F) :=
  do cell <- construct (TetragonalUnitCell a c);
  let node_pos := bcc_nodes in
  let node_atoms := [(symbol, lit 0, lit 0, lit 0)] in
  ret (make_lattice cell node_pos node_atoms).

(** [latt.AtomInNode(symbol)] of the CIF reader: the atom sits on its node.
    Modelled from the spec: the core wraps each site as a single-atom
    node. *)
Definition site_node (site : string * vec F) : latt.Node F :=
  let atom := latt.mkAtomInNode (fst site) (V3 (lit 0) (lit 0) (lit 0)) in
  latt.mkNode (snd site) [atom].

(** The message of [sys.exit] when gemmi cannot be imported. *)
Definition gemmi_needed : string :=
  "Gemmi is needed to read cif files. Try " ++ dquote ++ "pip install gemmi"
  ++ dquote ++ ".".

Definition make_lattice_from_cif (filename : string)
  : ST store (latt.CrystalLattice F) :=
  run (if gemmi_installed then ret tt else raise (SystemExit gemmi_needed));
  do st <- lift_result (read_atomic_structure filename);
  do cell <- construct (new_UnitCell (cif_a st) (cif_b st) (cif_c st)
                    (cif_alpha st) (cif_beta st) (cif_gamma st) EmptyString);
  let nodes := map site_node (cif_sites st) in
  ret (latt.mkCrystalLattice cell nodes).

(** ** OrthorhombicPbcModel and RotatedMonocrystal *)

(** An instance of [RotatedMonocrystal] with the attributes the three
    classes of its hierarchy set.  [unit_cell] is the reference held by
    the lattice: the model and the lattice share one cell object. *)
Record Model : Type := mkModel {
  lattice : latt.CrystalLattice F;
  unit_cell : loc;
  pbc : mat F;
  title : string;
  atoms : list (mdprim.Atom F);
  scope : option Scope;
  _min_max : list (F * F);
  dim : vec F;
  rot_mat : option (mat F)
}.

(** A method runs on [self] and on the store. *)
Record World : Type := mkWorld {
  self : Model;
  cells : store
}.

Definition set_atoms (a : list (mdprim.Atom F)) (w : World) : World :=
  let m := self w in
  mkWorld (mkModel (lattice m) (unit_cell m) (pbc m) (title m) a (scope m)
             (_min_max m) (dim m) (rot_mat m))
          (cells w).

Definition set_scope (sc : Scope) (w : World) : World :=
  let m := self w in
  mkWorld (mkModel (lattice m) (unit_cell m) (pbc m) (title m) (atoms m)
             (Some sc) (_min_max m) (dim m) (rot_mat m))
          (cells w).

Definition set_min_max (mm : list (F * F)) (w : World) : World :=
  let m := self w in
  mkWorld (mkModel (lattice m) (unit_cell m) (pbc m) (title m) (atoms m)
             (scope m) mm (dim m) (rot_mat m))
          (cells w).

Definition set_cells (s : store) (w : World) : World := mkWorld (self w) s.

(** A computation on the store, run inside a method. *)
Definition on_cells {A} (c : ST store A) : ST World A :=
  fun w => let '(r, s) := c (cells w) in (r, set_cells s w).

(** [obj.method(...)] from outside: the object after the call is returned
    with the value. *)
Definition call {A} (obj : Model) (m : ST World A) : ST store (A * Model) :=
  fun s =>
    match m (mkWorld obj s) with
    | (Ok a, w) => (Ok (a, self w), cells w)
    | (Raise e, w) => (Raise e, cells w)
    end.

(** [for x in l: body] *)
Fixpoint for_each {S A} (l : list A) (body : A -> ST S unit) : ST S unit :=
  match l with
  | [] => ret tt
  | x :: r => run body x; for_each r body
  end.

(** [RotatedMonocrystal(lattice, dim, rot_mat, title)]: the three
    [__init__] in the order they run.  Modelled from the spec:
    [FreshModel.__init__] keeps the lattice and its unit cell, the periodic
    box and the title, and starts with no atoms. *)
Definition RotatedMonocrystal (lattice : latt.CrystalLattice F) (dim : vec F)
  (rot_mat : option (mat F)) (title : option string) : Model :=
  let title :=
    match title with
    | None => "generated by gosam.monocryst"
    | Some t => t
    end in
  (* OrthorhombicPbcModel.__init__ *)
  let pbc := mul_rows identity3 dim in
  (* FreshModel.__init__ *)
  {| lattice := lattice; unit_cell := latt.unit_cell lattice; pbc := pbc;
     title := title; atoms := []; scope := None; _min_max := [];
     dim := dim; rot_mat := rot_mat |}.

Definition get_vertices (m : Model) : list (vec F) :=
  match _min_max m with
  | [(x_lo, x_hi); (y_lo, y_hi); (z_lo, z_hi)] =>
      flat_map (fun x =>
        flat_map (fun y =>
          map (fun z => V3 x y z) [z_lo; z_hi]) [y_lo; y_hi]) [x_lo; x_hi]
  | _ => []
  end.

(** [self.compute_scope()]: the collaborator is given the vertices, the
    unit cell and the nodes, and the scope it finds is kept in [self]. *)
Definition compute_scope_m : ST World unit :=
  do w <- get;
  do c <- on_cells (load (unit_cell (self w)));
  modify (set_scope
    (compute_scope c (latt.nodes (lattice (self w))) (get_vertices (self w)))).

(** [self.get_all_nodes()] *)
Definition get_all_nodes_m : ST World (list (latt.Node F * vec F)) :=
  do w <- get;
  match scope (self w) with
  | Some sc => ret (get_all_nodes sc (latt.nodes (lattice (self w))))
  | None => raise (ForeignError "get_all_nodes before compute_scope")
  end.

(** The test of the box filler. *)
Definition in_box (vmin vmax xyz : vec F) : bool :=
  all_lt vmin xyz && all_le xyz vmax.

(** [_do_gen_atoms(self, vmin, vmax)]; the scope summary it prints is left
    out. *)
Definition _do_gen_atoms (vmin vmax : vec F) : ST World unit :=
  run modify (set_min_max (combine (vlist vmin) (vlist vmax)));
  run compute_scope_m;
  do all_nodes <- get_all_nodes_m;
  for_each all_nodes (fun '(node, abs_pos) =>
    for_each (latt.atoms_in_node node) (fun atom =>
      do w <- get;
      do c <- on_cells (load (unit_cell (self w)));
      let xyz := dot_vm (vadd abs_pos (latt.pos atom)) (M_1 c) in
      if in_box vmin vmax xyz
      then modify (fun w =>
             set_atoms (atoms (self w) ++ [mdprim.mkAtom (latt.name atom) xyz])
                       w)
      else ret tt)).

(** [get_box_to_fill(self, dim, upper, z_margin)].  The bounds are computed
    from [self.dim]; the parameter [dim] is not read. *)
Definition get_box_to_fill (dim_arg : vec F) (upper : object) (z_margin : F)
  : ST World (vec F * vec F) :=
  do w <- get;
  (* make it a bit asymmetric, to avoid problems with PBC *)
  let eps := lit 0.001 in
  let vmin := vmap (fun d => - d / lit 2 + eps)%F (dim (self w)) in
  let vmax := vmap (fun d => d / lit 2 + eps)%F (dim (self w)) in
  run assert (py_in upper [Bool_ true; Bool_ false; None_]);
  if is_True upper then
    let vmin := set2 vmin eps in
    let vmax :=
      if truthy z_margin then set2 vmax (v2 vmax - z_margin / lit 2)%F
      else vmax in
    ret (vmin, vmax)
  else if is_False upper then
    let vmax := set2 vmax eps in
    let vmin :=
      if truthy z_margin then set2 vmin (v2 vmin + z_margin / lit 2)%F
      else vmin in
    ret (vmin, vmax)
  else ret (vmin, vmax).

(** [self.unit_cell.rotate(rot_mat)]: the cell object is changed in
    place. *)
Definition rotate_cell (l : loc) (r : mat F) : ST store unit :=
  do c <- load l;
  modify (fun s : store => <[l := rotate c r]> s).

(** [generate_atoms(self, upper=None, z_margin=0.)]; [upper] and
    [z_margin] are used for building a bicrystal. *)
Definition generate_atoms (upper : object) (z_margin : F)
  : ST World (list (mdprim.Atom F)) :=
  run modify (set_atoms []);
  do w <- get;
  do ' (vmin, vmax) <- get_box_to_fill (dim (self w)) upper z_margin;
  run match rot_mat (self w) with
      | Some r => on_cells (rotate_cell (unit_cell (self w)) r)
      | None => ret tt
      end;
  run _do_gen_atoms vmin vmax;
  do w <- get;
  ret (atoms (self w)).

(** ** The driver *)

Definition mono (lattice : latt.CrystalLattice F) (nx ny nz : F)
  : ST store Model :=
  do c <- load (latt.unit_cell lattice);
  let min_dim := get_orthorhombic_supercell c in
  let dim :=
    V3 (round_to_multiplicity (v0 min_dim) (lit 10 * nx)%F)
       (round_to_multiplicity (v1 min_dim) (lit 10 * ny)%F)
       (round_to_multiplicity (v2 min_dim) (lit 10 * nz)%F) in
  do copy <- deepcopy lattice;
  let config := RotatedMonocrystal copy dim None (Some get_command_line) in
  do ' (_, config) <- call config (generate_atoms None_ (lit 0));
  ret config.

(** ** The lookup *)

(** To change lattice parameters or atomic symbols just modify this
    function. *)
Definition get_named_lattice (name : string)
  : ST store (latt.CrystalLattice F) :=
  if endswith name ".cif" then make_lattice_from_cif name
  else
  let name := lower name in
  if String.eqb name "cu" then make_fcc_lattice "Cu" (lit 3.615)
  else if String.eqb name "al" then make_fcc_lattice "Al" (lit 4.041)
  else if String.eqb name "ag" then make_fcc_lattice "Ag" (lit 4.09)
  else if String.eqb name "ni" then make_fcc_lattice "Ni" (lit 3.52)
  else if String.eqb name "pt" then make_fcc_lattice "Pt" (lit 3.92)
  else if String.eqb name "fe" then make_bcc_lattice "Fe" (lit 2.87)
  else if String.eqb name "nb" then make_bcc_lattice "Nb" (lit 3.308)
  else if String.eqb name "w" then make_bcc_lattice "W" (lit 3.165)
  else if String.eqb name "po" then make_simple_cubic_lattice "Po" (lit 3.35)
  else if String.eqb name "nacl" then
    make_nacl_lattice ["Na"; "Cl"] (lit 5.64)
  else if String.eqb name "niti" then
    make_niti_lattice ["Ni"; "Ti"] (lit 3.008)
  else if String.eqb name "cdte" then
    make_zincblende2_lattice ["Cd"; "Te"] (lit 4.321)
  else if String.eqb name "cuznges" then
    make_kesterite_structure ["Cu"; "Zn"; "Ge"; "S"]
      (lit 5.358) (lit 5.358) (lit 10.641)
  else if String.eqb name "cuznsnse" then
    make_stannite_structure ["Cu"; "Zn"; "Ge"; "S"]
      (lit 5.358) (lit 5.358) (lit 10.641)
  else if String.eqb name "graphine" then
    make_c_hexagonal_lattice "C" (lit 3.07) (lit 2.52) "ABABC"
  else if String.eqb name "mg" then
    make_mg_hexagonal_lattice "Mg" (lit 3.183) (lit 2.06) "ABAB"
  else if String.eqb name "crnb" then
    make_crnb_lattice ["Cr"; "Nb"] (lit 6.5)
  else if String.eqb name "nbo" then
    make_nbo_lattice ["Nb"; "O"] (lit 3.32)
  else if String.eqb name "tial" then
    make_tial_lattice ["Ti"; "Al"] (lit 4.0) (lit 4.0) (lit 4.0)
  else if String.eqb name "sic" then
    (* 4.3210368 A - value for Tersoff (1989) MD potential
       4.36 A - real value *)
    make_zincblende_lattice ["Si"; "C"] (lit 4.3210368)
  else if String.eqb name "si" then make_diamond_lattice "Si" (lit 5.43)
  else if String.eqb name "diamond" then
    make_diamond_lattice "C" (lit 3.567)
  else if startswith name "sic:" then
    make_sic_polytype_lattice ["Si"; "C"] (lit 3.073) (lit 2.52)
      (slice_from 4 name)
  else if String.eqb name "sn" then
    make_bct_lattice "Sn" (lit 5.83) (lit 3.18)
  else raise (ValueError (format_s "Unknown lattice: " name)).

(** The names the lookup answers: the listed structures and every
    [sic:] polytype. *)
Definition catalog_names : list string :=
  ["cu"; "al"; "ag"; "ni"; "pt"; "fe"; "nb"; "w"; "po"; "nacl"; "niti";
   "cdte"; "cuznges"; "cuznsnse"; "graphine"; "mg"; "crnb"; "nbo"; "tial";
   "sic"; "si"; "diamond"; "sn"].

Definition in_catalog (name : string) : bool :=
  existsb (String.eqb name) catalog_names || startswith name "sic:".

End Monocryst.

(** ** The command line driver *)

(** The one builtin [main] calls on its arguments: [float(s)], which
    raises [ValueError] on a string that is no number. *)
Class Builtins (F : Type) : Type := {
  float_of_str : string -> result F
}.

(** What [parser.parse_args] hands back besides the positional arguments:
    the two options of the parser ([--margin], a float or [None];
    [--center-zero], a flag). *)
Record Options (F : Type) : Type := mkOptions {
  margin : option F;
  center_zero : bool
}.

Arguments mkOptions {F}.
Arguments margin {F}.
Arguments center_zero {F}.

(** ["...%d" % n] with a single [%d] at the end of the format. *)
Definition format_d (prefix : string) (n : Z) : string :=
  prefix ++ NilZero.string_of_int (Z.to_int n).

Section Main.
Context {F : Type} `{Scalar F} `{Collab F} {U : Unicode} `{Builtins F}.

(** [numpy.minimum] and [numpy.maximum] on one component: the first
    operand is kept when it compares [<=] (resp. [>=]) to the second or is
    a NaN, otherwise the second is taken. *)
Definition isnan (x : F) : bool := negb (x =? x)%F.

Definition fmin (a b : F) : F := if (a <=? b)%F || isnan a then a else b.

Definition fmax (a b : F) : F := if (b <=? a)%F || isnan a then a else b.

Definition minimum (u v : vec F) : vec F := vzip fmin u v.

Definition maximum (u v : vec F) : vec F := vzip fmax u v.

(** The loop of [main] that finds the corners [m], [M] of the bounding box
    of the atoms, both started at the position of the first atom. *)
Definition bounding_box (start : vec F) (atoms : list (mdprim.Atom F))
  : vec F * vec F :=
  fold_left (fun mM atom =>
               (minimum (fst mM) (mdprim.pos atom),
                maximum (snd mM) (mdprim.pos atom)))
            atoms (start, start).

(** The block of [main] under [if options.center_zero]: the centre of the
    bounding box is subtracted from the position of every atom.
    [config.atoms[0]] raises [IndexError] when there is no atom. *)
Definition center_atoms {S} (atoms : list (mdprim.Atom F))
  : ST S (list (mdprim.Atom F)) :=
  match atoms with
  | [] => raise IndexError
  | first :: _ =>
      let '(m, M) := bounding_box (mdprim.pos first) atoms in
      let ctr := vmap (fun x => x / lit 2)%F (vadd m M) in
      ret (map (fun atom =>
                  mdprim.mkAtom (mdprim.name atom)
                                (vzip fsub (mdprim.pos atom) ctr))
               atoms)
  end.

(** The block of [main] under [if options.margin is not None]:
    [config.pbc[i][i] += margin] for the three [i]. *)
Definition widen_pbc (p : mat F) (margin : F) : mat F :=
  M3 (V3 (v0 (r0 p) + margin)%F (v1 (r0 p)) (v2 (r0 p)))
     (V3 (v0 (r1 p)) (v1 (r1 p) + margin)%F (v2 (r1 p)))
     (V3 (v0 (r2 p)) (v1 (r2 p)) (v2 (r2 p) + margin)%F).

Definition with_atoms (m : Model) (a : list (mdprim.Atom F)) : Model :=
  mkModel (lattice m) (unit_cell m) (pbc m) (title m) a (scope m)
          (_min_max m) (dim m) (rot_mat m).

Definition with_pbc (m : Model) (p : mat F) : Model :=
  mkModel (lattice m) (unit_cell m) p (title m) (atoms m) (scope m)
          (_min_max m) (dim m) (rot_mat m).

(** [args[i]]; every use comes after the test on [len(args)]. *)
Definition arg (args : list string) (i : nat) : string :=
  nth i args EmptyString.

(** [sys.exit()] *)
Definition sys_exit {S A} : ST S A := raise (SystemExit ExitNone).

(** [parser.error(msg)] of [optparse]: the usage and [msg] are written to
    the standard error stream, which like all console output is left out,
    and the run ends with [SystemExit(2)]. *)
Definition parser_error {S A} (msg : string) : ST S A :=
  raise (SystemExit (ExitStatus 2)).

(** [main()], from the result of [parser.parse_args(sys.argv)] on.  The
    help text that is printed is left out.  The last statement,
    [config.export_atoms(args[5])], writes a file: the model it is called
    on and the file name are what the run returns. *)
Definition main (options : Options F) (args : list string)
  : ST store (Model * string) :=
  run (if (length args =? 1)%nat then sys_exit else ret tt);
  run (if negb (length args =? 6)%nat
       then parser_error
              (format_d "5 arguments are required, not "
                        (Z.of_nat (length args) - 1))
       else ret tt);
  do lattice <- get_named_lattice (arg args 1);
  do nx <- lift_result (float_of_str (arg args 2));
  do ny <- lift_result (float_of_str (arg args 3));
  do nz <- lift_result (float_of_str (arg args 4));
  do config <- mono lattice nx ny nz;
  do config <-
    (if center_zero options
     then do centered <- center_atoms (atoms config);
          ret (with_atoms config centered)
     else ret config);
  let config :=
    match margin options with
    | Some mg => with_pbc config (widen_pbc (pbc config) (mg * lit 10)%F)
    | None => config
    end in
  ret (config, arg args 5).

End Main.

(* ===================================================================== *)
(** * A reference model of the collaborators                              *)
(* ===================================================================== *)

(** The theorems about [monocryst.py] hold for every [Collab].  To run the
    code on concrete input one instance is needed; this one follows the
    spec's description of the collaborators and covers cells whose angles
    are right angles (cubic, tetragonal, orthorhombic).  Constructors of
    oblique cells raise. *)

Section Reference.
Context {F : Type} `{Scalar F}.

(** Modelled from the spec: the unit cell of [latt] is absent from the
    source.  It keeps its lengths and the derived 3x3 matrix [rM_1] that
    takes fractional to absolute coordinates, with the inverse [rM]. *)
Record RefCell : Type := mkRefCell {
  abc : vec F;
  rM : mat F;
  rM_1 : mat F
}.

Definition diag (a b c : F) : mat F :=
  let o := lit 0 in M3 (V3 a o o) (V3 o b o) (V3 o o c).

Definition ortho_cell (a b c : F) : RefCell :=
  mkRefCell (V3 a b c)
            (diag (lit 1 / a)%F (lit 1 / b)%F (lit 1 / c)%F)
            (diag a b c).

Definition oblique {A} : result A :=
  Raise (ForeignError "oblique cell outside the reference model").

(** Modelled from the spec: [UnitCell.rotate] applies a rotation to the
    basis vectors of the cell and recomputes the transform; the fractional
    decoration and the lengths stay. *)
Definition ref_rotate (c : RefCell) (r : mat F) : RefCell :=
  mkRefCell (abc c) (dot_mm (transpose r) (rM c)) (dot_mm (rM_1 c) r).

(** Modelled from the spec: the smallest periodic orthorhombic box of a
    right-angled cell is the cell itself. *)
Definition ref_supercell (c : RefCell) : vec F := abc c.

(** Modelled from the spec: the canonical node tables of [graingen], in
    fractions of the cell. *)
Definition ref_simple_nodes : list (vec F) :=
  [V3 (lit 0) (lit 0) (lit 0)].

Definition ref_fcc_nodes : list (vec F) :=
  [V3 (lit 0) (lit 0) (lit 0);
   V3 (lit 0.5) (lit 0.5) (lit 0);
   V3 (lit 0.5) (lit 0) (lit 0.5);
   V3 (lit 0) (lit 0.5) (lit 0.5)].

Definition ref_bcc_nodes : list (vec F) :=
  [V3 (lit 0) (lit 0) (lit 0);
   V3 (lit 0.5) (lit 0.5) (lit 0.5)].

Definition ref_hcp_nodes : list (vec F) :=
  [V3 (lit 0) (lit 0) (lit 0);
   V3 (lit (1 # 3)) (lit (2 # 3)) (lit 0.5)].

(** Modelled from the spec: the scope is a range of integer replica
    offsets along each cell axis. *)
Record RefScope : Type := mkRefScope {
  a_range : Z * Z;
  b_range : Z * Z;
  c_range : Z * Z
}.

Definition Zmin_list (d : Z) (l : list Z) : Z :=
  match l with
  | [] => d
  | x :: r => fold_left Z.min r x
  end.

Definition Zmax_list (d : Z) (l : list Z) : Z :=
  match l with
  | [] => d
  | x :: r => fold_left Z.max r x
  end.

(** The range of one axis: the vertices in cell units, rounded outwards
    and padded by one cell on either side. *)
Definition axis_range (j : vec F -> F) (uvertices : list (vec F)) : Z * Z :=
  ((Zmin_list 0 (map (fun v => ffloor (j v)) uvertices) - 1)%Z,
   (Zmax_list 0 (map (fun v => fceil (j v)) uvertices) + 1)%Z).

(** Modelled from the spec: [compute_scope] finds the lattice replicas
    that could place an atom inside the box spanned by the vertices, padded
    by one cell in every direction. *)
Definition ref_compute_scope (c : RefCell) (nodes : list (latt.Node F))
  (vertices : list (vec F)) : RefScope :=
  let uvertices := map (fun v => dot_vm v (rM c)) vertices in
  mkRefScope (axis_range v0 uvertices) (axis_range v1 uvertices)
             (axis_range v2 uvertices).

(** The integers [lo, lo+1, ..., hi]. *)
Definition Zrange (r : Z * Z) : list Z :=
  map (fun k => (fst r + Z.of_nat k)%Z)
      (List.seq 0 (Z.to_nat (snd r - fst r + 1))).

(** Modelled from the spec: [get_all_nodes] yields, for every replica of
    the scope and every node of the lattice, the node with its position in
    cell units. *)
Definition ref_get_all_nodes (sc : RefScope) (nodes : list (latt.Node F))
  : list (latt.Node F * vec F) :=
  flat_map (fun i =>
    flat_map (fun j =>
      flat_map (fun k =>
        map (fun node =>
               (node,
                vadd (latt.pos_in_cell node)
                     (V3 (lit (i # 1)) (lit (j # 1)) (lit (k # 1)))))
            nodes)
        (Zrange (c_range sc)))
      (Zrange (b_range sc)))
    (Zrange (a_range sc)).

(** Modelled from the spec: a dimension is rounded up to the nearest
    multiple of the repeat length [m]. *)
Definition ref_round_to_multiplicity (m val : F) : F :=
  (lit (fceil (val / m) # 1) * m)%F.

(** A right angle, in degrees as a CIF file gives it. *)
Definition right_angle (x : F) : bool := (x =? lit 90)%F.

#[export] Instance ref_collab : Collab F := {|
  UnitCell := RefCell;
  new_UnitCell := fun a b c alpha beta gamma _ =>
    if right_angle alpha && right_angle beta && right_angle gamma
    then Ok (ortho_cell a b c) else oblique;
  CubicUnitCell := fun a => Ok (ortho_cell a a a);
  TetragonalUnitCell := fun a c => Ok (ortho_cell a a c);
  OrthorhombicUnitCell := fun a b c => Ok (ortho_cell a b c);
  HexagonalUnitCell := fun _ _ => oblique;
  M_1 := rM_1;
  rotate := ref_rotate;
  get_orthorhombic_supercell := ref_supercell;
  latt_generate_polytype := fun _ _ _ => oblique;
  simple_nodes := ref_simple_nodes;
  fcc_nodes := ref_fcc_nodes;
  bcc_nodes := ref_bcc_nodes;
  hcp_nodes := ref_hcp_nodes;
  graingen_generate_polytype := fun _ _ _ => oblique;
  Scope := RefScope;
  compute_scope := ref_compute_scope;
  get_all_nodes := ref_get_all_nodes;
  round_to_multiplicity := ref_round_to_multiplicity;
  get_command_line := "monocryst.py";
  gemmi_installed := false;
  read_atomic_structure := fun _ => Raise (ForeignError "gemmi")
|}.

End Reference.

(* ===================================================================== *)
(** * The vocabulary of the properties                                    *)
(* ===================================================================== *)

Section Vocabulary.
Context {F : Type} `{Scalar F} `{Collab F}.

(** The candidate atoms of a run: every atom of every enumerated replica,
    at the absolute position the unit cell gives it. *)
Definition candidate (c : UnitCell) (abs_pos : vec F)
  (atom : latt.AtomInNode F) : mdprim.Atom F :=
  mdprim.mkAtom (latt.name atom)
                (dot_vm (vadd abs_pos (latt.pos atom)) (M_1 c)).

Definition candidates (c : UnitCell)
  (all_nodes : list (latt.Node F * vec F)) : list (mdprim.Atom F) :=
  flat_map (fun np => map (candidate c (snd np))
                          (latt.atoms_in_node (fst np)))
           all_nodes.

(** The half-open box, axis by axis: [vmin < p] and [p <= vmax]. *)
Definition half_open (vmin vmax p : vec F) : bool :=
  forallb (fun j : vec F -> F => (j vmin <? j p)%F && (j p <=? j vmax)%F)
          [v0; v1; v2].

(** The eight corners of a box. *)
Definition box_vertices (vmin vmax : vec F) : list (vec F) :=
  [V3 (v0 vmin) (v1 vmin) (v2 vmin); V3 (v0 vmin) (v1 vmin) (v2 vmax);
   V3 (v0 vmin) (v1 vmax) (v2 vmin); V3 (v0 vmin) (v1 vmax) (v2 vmax);
   V3 (v0 vmax) (v1 vmin) (v2 vmin); V3 (v0 vmax) (v1 vmin) (v2 vmax);
   V3 (v0 vmax) (v1 vmax) (v2 vmin); V3 (v0 vmax) (v1 vmax) (v2 vmax)].

(** What one run of the box filler keeps, for a cell [c] and a lattice
    with the given nodes. *)
Definition fill (c : UnitCell) (nodes : list (latt.Node F))
  (vmin vmax : vec F) : list (mdprim.Atom F) :=
  List.filter (fun a => half_open vmin vmax (mdprim.pos a))
         (candidates c
            (get_all_nodes (compute_scope c nodes (box_vertices vmin vmax))
                           nodes)).

(** The world a run of the box filler leaves: the bounds and the scope are
    recorded in [self], the kept atoms are appended, the store is as it
    was. *)
Definition filled (c : UnitCell) (vmin vmax : vec F) (w : World) : World :=
  let nodes := latt.nodes (lattice (self w)) in
  set_atoms (atoms (self w) ++ fill c nodes vmin vmax)
    (set_scope (compute_scope c nodes (box_vertices vmin vmax))
       (set_min_max (combine (vlist vmin) (vlist vmax)) w)).

(** The cell a run fills with: the builder's rotation, when it has one, is
    applied to the cell the store holds. *)
Definition oriented (rot : option (mat F)) (c : UnitCell) : UnitCell :=
  match rot with
  | Some r => rotate c r
  | None => c
  end.

(** The epsilon of [get_box_to_fill] and the bounds of the full box. *)
Definition eps : F := lit 0.001.

Definition full_vmin (d : vec F) : vec F :=
  V3 (- v0 d / lit 2 + eps)%F (- v1 d / lit 2 + eps)%F
     (- v2 d / lit 2 + eps)%F.

Definition full_vmax (d : vec F) : vec F :=
  V3 (v0 d / lit 2 + eps)%F (v1 d / lit 2 + eps)%F (v2 d / lit 2 + eps)%F.

(** The world a call of [generate_atoms] leaves when it returns: the atom
    list is started anew, the cell in the store is the oriented one, and
    the box filler has run with it. *)
Definition generated (c : UnitCell) (vmin vmax : vec F) (w : World) : World :=
  let c' := oriented (rot_mat (self w)) c in
  filled c' vmin vmax
    (set_cells (<[unit_cell (self w) := c']> (cells w)) (set_atoms [] w)).

(** [n] calls of [generate_atoms] with the same arguments, one after the
    other, on the same builder. *)
Fixpoint generate_n (n : nat) (upper : object) (z_margin : F)
  : ST World unit :=
  match n with
  | O => ret tt
  | Datatypes.S k =>
      run generate_n k upper z_margin;
      run generate_atoms upper z_margin;
      ret tt
  end.

(** The dimensions [mono] asks for. *)
Definition mono_dim (c : UnitCell) (nx ny nz : F) : vec F :=
  let min_dim := get_orthorhombic_supercell c in
  V3 (round_to_multiplicity (v0 min_dim) (lit 10 * nx)%F)
     (round_to_multiplicity (v1 min_dim) (lit 10 * ny)%F)
     (round_to_multiplicity (v2 min_dim) (lit 10 * nz)%F).

(** The bounds of the two half boxes with no margin. *)
Definition upper_vmin (d : vec F) : vec F := set2 (full_vmin d) eps.

Definition lower_vmax (d : vec F) : vec F := set2 (full_vmax d) eps.

(** A replica of a node of the lattice: the node, at its position in the
    cell moved by whole cells. *)
Definition is_replica (nodes : list (latt.Node F))
  (np : latt.Node F * vec F) : Prop :=
  In (fst np) nodes /\
  exists i j k : Z,
    snd np = vadd (latt.pos_in_cell (fst np))
                  (V3 (lit (i # 1)) (lit (j # 1)) (lit (k # 1))).

(** The contract of the replica enumeration ([compute_scope] with
    [get_all_nodes]) for one cell and one box, as the spec words it: what
    is enumerated are replicas of the lattice nodes, extra ones are
    tolerated, but no replica that places an atom inside the box may be
    missing. *)
Definition scope_contract (c : UnitCell) (nodes : list (latt.Node F))
  (vmin vmax : vec F) : Prop :=
  let all_nodes :=
    get_all_nodes (compute_scope c nodes (box_vertices vmin vmax)) nodes in
  (forall np, In np all_nodes -> is_replica nodes np) /\
  (forall np atom,
     is_replica nodes np ->
     In atom (latt.atoms_in_node (fst np)) ->
     half_open vmin vmax (mdprim.pos (candidate c (snd np) atom)) = true ->
     In np all_nodes).

(** The three recognized states of [upper]. *)
Definition recognized : list (@object F) := [Bool_ true; Bool_ false; None_].

End Vocabulary.

(** ** Running the embedding on the reference model *)

(** The species count of an atom list. *)
Definition count_species {F} (s : string) (l : list (mdprim.Atom F)) : nat :=
  List.length (List.filter (fun a => String.eqb (mdprim.name a) s) l).

(** A lattice from a factory in an empty store, filled into a box of the
    given dimensions by one call of [generate_atoms] on a fresh builder
    without rotation. *)
Definition fill_fresh {F} `{Scalar F}
  (factory : ST (gmap loc (@UnitCell F ref_collab))
               (latt.CrystalLattice F))
  (dim : vec F) (upper : @object F) (z_margin : F)
  : result (list (mdprim.Atom F)) :=
  fst ((do lattice <- factory;
        do ' (atoms, _) <-
          call (RotatedMonocrystal lattice dim None None)
               (generate_atoms upper z_margin);
        ret atoms) ∅).

(** Polonium, simple cubic, in exact arithmetic: the cell, the store and
    the lattice that [make_simple_cubic_lattice] builds. *)
Definition po_cell : @UnitCell Q ref_collab :=
  (ortho_cell 3.35 3.35 3.35)%Q.

Definition po_store : gmap loc (@UnitCell Q ref_collab) :=
  {[ 1%positive := po_cell ]}.

Definition po_node : latt.Node Q :=
  (latt_Node (V3 0 0 0) [("Po", 0, 0, 0)])%Q.

Definition po_lattice : latt.CrystalLattice Q :=
  latt.mkCrystalLattice 1%positive [po_node].

(** A builder for two cells of polonium along each axis. *)
Definition po_dim : vec Q := (V3 6.7 6.7 6.7)%Q.

Definition po_world (rot : option (mat Q)) : @World Q ref_collab :=
  mkWorld (RotatedMonocrystal po_lattice po_dim rot None) po_store.



(** A quarter turn about the third axis. *)
Definition quarter_turn : mat Q :=
  (M3 (V3 0 (-1) 0) (V3 1 0 0) (V3 0 0 1))%Q.

(** ** Further vocabulary *)

Section MoreVocabulary.
Context {F : Type} `{Scalar F} `{Collab F}.

(** How many atoms of a species one node carries. *)
Definition node_count (s : string) (node : latt.Node F) : nat :=
  List.length
    (List.filter (fun atom => String.eqb (latt.name atom) s)
                 (latt.atoms_in_node node)).




(** The plane [mid] cuts the slab from [lo] to [hi]: the three numbers
    are in order; or they are in the opposite order, the slab of a negative
    dimension, which holds nothing; or [lo] and [hi] are no numbers, the
    slab of a NaN. *)
Definition cut_by (lo mid hi : F) : bool :=
  ((lo <=? mid)%F && (mid <=? hi)%F) ||
  ((hi <=? mid)%F && (mid <=? lo)%F) ||
  (isnan lo && isnan hi).

(** All three coordinates are numbers. *)
Definition numeric (v : vec F) : bool :=
  (v0 v =? v0 v)%F && (v1 v =? v1 v)%F && (v2 v =? v2 v)%F.

(** [(u == v).all()] *)
Definition veqb (u v : vec F) : bool :=
  (v0 u =? v0 v)%F && (v1 u =? v1 v)%F && (v2 u =? v2 v)%F.

(** [(u <= v).all()] *)
Definition vleb (u v : vec F) : bool :=
  (v0 u <=? v0 v)%F && (v1 u <=? v1 v)%F && (v2 u <=? v2 v)%F.

(** A computation that builds a lattice touches no object the store held
    before, and the unit cell of the lattice it returns is a new object. *)
Definition builds_new_cell (m : ST store (latt.CrystalLattice F)) : Prop :=
  forall s : store,
    (forall l, is_Some (s !! l) -> snd (m s) !! l = s !! l) /\
    match fst (m s) with
    | Ok lat =>
        s !! latt.unit_cell lat = None /\
        is_Some (snd (m s) !! latt.unit_cell lat)
    | Raise _ => True
    end.

End MoreVocabulary.


(** The reference model with the answers of two collaborators supplied:
    what the polytype generators return, and what gemmi reads when it is
    installed.  The rest is [ref_collab]. *)
Definition ref_collab_with {F} `{Scalar F}
  (polytype : F -> F -> string -> result (@RefCell F * list (vec F)))
  (gemmi : option (string -> result (CifStructure F))) : Collab F := {|
  UnitCell := RefCell;
  new_UnitCell := fun a b c alpha beta gamma _ =>
    if right_angle alpha && right_angle beta && right_angle gamma
    then Ok (ortho_cell a b c) else oblique;
  CubicUnitCell := fun a => Ok (ortho_cell a a a);
  TetragonalUnitCell := fun a c => Ok (ortho_cell a a c);
  OrthorhombicUnitCell := fun a b c => Ok (ortho_cell a b c);
  HexagonalUnitCell := fun _ _ => oblique;
  M_1 := rM_1;
  rotate := ref_rotate;
  get_orthorhombic_supercell := ref_supercell;
  latt_generate_polytype := polytype;
  simple_nodes := ref_simple_nodes;
  fcc_nodes := ref_fcc_nodes;
  bcc_nodes := ref_bcc_nodes;
  hcp_nodes := ref_hcp_nodes;
  graingen_generate_polytype := polytype;
  Scope := RefScope;
  compute_scope := ref_compute_scope;
  get_all_nodes := ref_get_all_nodes;
  round_to_multiplicity := ref_round_to_multiplicity;
  get_command_line := "monocryst.py";
  gemmi_installed := match gemmi with Some _ => true | None => false end;
  read_atomic_structure :=
    match gemmi with
    | Some read => read
    | None => fun _ => Raise (ForeignError "gemmi")
    end
|}.



(** The shift of [main] when it centres: [atom.pos -= ctr]. *)
Definition shifted {F} `{Scalar F} (ctr : vec F) (atom : mdprim.Atom F)
  : mdprim.Atom F :=
  mdprim.mkAtom (mdprim.name atom) (vzip fsub (mdprim.pos atom) ctr).

(** ** Instances to run the driver and the readers *)

(** A CIF file of polonium as gemmi would hand it over, and the reference
    model with a gemmi that reads this structure from every file. *)
Definition po_cif : CifStructure Q :=
  (mkCif 3.35 3.35 3.35 90 90 90 [("Po", V3 0 0 0)])%Q.

Definition cif_collab : Collab Q :=
  ref_collab_with (fun _ _ _ => oblique) (Some (fun _ => Ok po_cif)).

(** A CIF file without sites. *)
Definition empty_cif : CifStructure Q :=
  (mkCif 3.35 3.35 3.35 90 90 90 [])%Q.

Definition empty_cif_collab : Collab Q :=
  ref_collab_with (fun _ _ _ => oblique) (Some (fun _ => Ok empty_cif)).

(** The reference model with polytype generators that answer every
    stacking sequence with an orthorhombic cell and one node at the
    origin: enough to run the three polytype factories to their end. *)
Definition stack_collab : Collab Q :=
  ref_collab_with
    (fun a h _ => Ok (ortho_cell a a h, [V3 0 0 0]))%Q None.

(** [float(s)] on the strings of decimal digits; every other string is
    refused here with the [ValueError] of Python (which accepts more
    spellings of a number). *)
Definition digit_value (ch : ascii) : option Z :=
  let n := nat_of_ascii ch in
  if ((48 <=? n) && (n <=? 57))%nat then Some (Z.of_nat (n - 48)) else None.

Fixpoint digits_value (acc : Z) (s : string) : option Z :=
  match s with
  | EmptyString => Some acc
  | String ch rest =>
      match digit_value ch with
      | Some d => digits_value (10 * acc + d) rest
      | None => None
      end
  end.

Definition digits_builtins : Builtins Q := {|
  float_of_str := fun s =>
    match s, digits_value 0 s with
    | String _ _, Some n => Ok (inject_Z n)
    | _, _ => Raise (ValueError ("could not convert string to float: " ++ s))
    end
|}.

(* ===================================================================== *)
(** * Properties                                                          *)
(* ===================================================================== *)

(** ** Computations *)

Section Computations.
Context {S A B : Type}.

Lemma bind_ok (c : ST S A) (k : A -> ST S B) s a s' :
  c s = (Ok a, s') -> bind c k s = k a s'.
Proof. intros E. unfold bind. now rewrite E. Qed.

Lemma bind_raise (c : ST S A) (k : A -> ST S B) s e s' :
  c s = (Raise e, s') -> bind c k s = (Raise e, s').
Proof. intros E. unfold bind. now rewrite E. Qed.

Lemma for_each_app (l1 l2 : list A) (body : A -> ST S unit) s s' :
  for_each l1 body s = (Ok tt, s') ->
  for_each (l1 ++ l2) body s = for_each l2 body s'.
Proof.
  revert s. induction l1 as [|x l1 IH]; intros s E; simpl in *.
  - unfold ret in E. now inversion E.
  - unfold bind in *. destruct (body x s) as [[[]|e] s1]; [|discriminate].
    now apply IH.
Qed.

End Computations.

Section BoxFiller.
Context {F : Type} `{Scalar F} `{Collab F}.

(** ** The box filler *)

Lemma in_box_half_open vmin vmax p :
  in_box vmin vmax p = half_open vmin vmax p.
Proof.
  unfold in_box, half_open, all_lt, all_le. simpl.
  destruct (v0 vmin <? v0 p)%F, (v1 vmin <? v1 p)%F, (v2 vmin <? v2 p)%F,
           (v0 p <=? v0 vmax)%F, (v1 p <=? v1 vmax)%F, (v2 p <=? v2 vmax)%F;
    reflexivity.
Qed.

Lemma set_atoms_same w : set_atoms (atoms (self w)) w = w.
Proof. destruct w as [[] ?]. reflexivity. Qed.

Lemma set_atoms_twice a b w : set_atoms a (set_atoms b w) = set_atoms a w.
Proof. reflexivity. Qed.

(** The inner loop, over the atoms of one node. *)
Lemma for_each_atom vmin vmax c abs_pos (l : list (latt.AtomInNode F)) :
  forall w,
  cells w !! unit_cell (self w) = Some c ->
  for_each l (fun atom =>
    do w <- get;
    do c <- on_cells (load (unit_cell (self w)));
    let xyz := dot_vm (vadd abs_pos (latt.pos atom)) (M_1 c) in
    if in_box vmin vmax xyz
    then modify (fun w =>
           set_atoms (atoms (self w) ++ [mdprim.mkAtom (latt.name atom) xyz])
                     w)
    else ret tt) w
  = (Ok tt,
     set_atoms (atoms (self w) ++
                List.filter (fun a => half_open vmin vmax (mdprim.pos a))
                       (map (candidate c abs_pos) l)) w).
Proof.
  induction l as [|atom l IH]; intros w Hc.
  - simpl. rewrite app_nil_r, set_atoms_same. reflexivity.
  - cbn [for_each map List.filter].
    unfold bind at 1. unfold bind at 1. unfold get at 1.
    unfold bind at 1. unfold on_cells at 1, load at 1. rewrite Hc.
    assert (Es : set_cells (cells w) w = w) by now destruct w.
    rewrite Es. cbn [mdprim.pos candidate].
    rewrite <- in_box_half_open.
    destruct (in_box vmin vmax _) eqn:Eb.
    + unfold modify at 1. rewrite IH by exact Hc.
      cbn [self set_atoms atoms]. rewrite <- app_assoc. reflexivity.
    + unfold ret at 1. apply IH, Hc.
Qed.

(** The outer loop, over the enumerated replicas. *)
Lemma for_each_node vmin vmax c (l : list (latt.Node F * vec F)) :
  forall w,
  cells w !! unit_cell (self w) = Some c ->
  for_each l (fun '(node, abs_pos) =>
    for_each (latt.atoms_in_node node) (fun atom =>
      do w <- get;
      do c <- on_cells (load (unit_cell (self w)));
      let xyz := dot_vm (vadd abs_pos (latt.pos atom)) (M_1 c) in
      if in_box vmin vmax xyz
      then modify (fun w =>
             set_atoms (atoms (self w) ++ [mdprim.mkAtom (latt.name atom) xyz])
                       w)
      else ret tt)) w
  = (Ok tt,
     set_atoms (atoms (self w) ++
                List.filter (fun a => half_open vmin vmax (mdprim.pos a))
                       (candidates c l)) w).
Proof.
  induction l as [|[node abs_pos] l IH]; intros w Hc.
  - simpl. rewrite app_nil_r, set_atoms_same. reflexivity.
  - cbn [for_each]. unfold bind at 1.
    rewrite (for_each_atom vmin vmax c abs_pos _ w Hc).
    rewrite IH by exact Hc.
    cbn [self set_atoms atoms candidates flat_map fst snd].
    rewrite List.filter_app, <- app_assoc. reflexivity.
Qed.

Lemma do_gen_atoms_spec vmin vmax c w :
  cells w !! unit_cell (self w) = Some c ->
  _do_gen_atoms vmin vmax w = (Ok tt, filled c vmin vmax w).
Proof.
  intros Hc. unfold _do_gen_atoms.
  unfold bind at 1. unfold modify at 1.
  set (w1 := set_min_max _ w).
  assert (Hc1 : cells w1 !! unit_cell (self w1) = Some c) by exact Hc.
  unfold bind at 1. unfold compute_scope_m.
  unfold bind at 1. unfold get at 1.
  unfold bind at 1. unfold on_cells at 1, load at 1. rewrite Hc1.
  assert (Es : set_cells (cells w1) w1 = w1) by now destruct w1.
  rewrite Es. unfold modify at 1.
  set (w2 := set_scope _ w1).
  assert (Hc2 : cells w2 !! unit_cell (self w2) = Some c) by exact Hc.
  unfold bind at 1. unfold get_all_nodes_m.
  unfold bind at 1. unfold get at 1.
  cbn [scope self w2 set_scope]. unfold ret at 1.
  rewrite (for_each_node vmin vmax c _ w2 Hc2).
  reflexivity.
Qed.

(** C1.  The box filler appends an atom exactly when its position passes
    the half-open test.  In a world whose unit cell is [c], a run with
    bounds [vmin], [vmax] returns, leaves the store as it was, and appends
    to [self.atoms], in enumeration order, those candidates (replica
    position plus atom offset, through [M_1]) whose position [p] has
    [vmin < p] and [p <= vmax] on each of the three axes; a candidate
    failing the test on some axis is not appended. *)
Theorem do_gen_atoms_half_open vmin vmax c w :
  cells w !! unit_cell (self w) = Some c ->
  let nodes := latt.nodes (lattice (self w)) in
  let all_nodes :=
    get_all_nodes (compute_scope c nodes (box_vertices vmin vmax)) nodes in
  exists w',
    _do_gen_atoms vmin vmax w = (Ok tt, w') /\
    cells w' = cells w /\
    (exists appended,
       atoms (self w') = atoms (self w) ++ appended /\
       appended =
         List.filter (fun a => half_open vmin vmax (mdprim.pos a))
                     (candidates c all_nodes) /\
       forall node abs_pos atom,
         In (node, abs_pos) all_nodes ->
         In atom (latt.atoms_in_node node) ->
         let xyz := dot_vm (vadd abs_pos (latt.pos atom)) (M_1 c) in
         In (mdprim.mkAtom (latt.name atom) xyz) appended <->
         ((v0 vmin <? v0 xyz)%F = true /\ (v0 xyz <=? v0 vmax)%F = true) /\
         ((v1 vmin <? v1 xyz)%F = true /\ (v1 xyz <=? v1 vmax)%F = true) /\
         ((v2 vmin <? v2 xyz)%F = true /\ (v2 xyz <=? v2 vmax)%F = true)).
Proof.
  intros Hc nodes all_nodes.
  exists (filled c vmin vmax w). split; [now apply do_gen_atoms_spec|].
  split; [reflexivity|].
  exists (fill c nodes vmin vmax). split; [reflexivity|].
  split; [reflexivity|].
  intros node abs_pos atom Hn Ha xyz.
  assert (Hh : forall p, half_open vmin vmax p = true <->
    ((v0 vmin <? v0 p)%F = true /\ (v0 p <=? v0 vmax)%F = true) /\
    ((v1 vmin <? v1 p)%F = true /\ (v1 p <=? v1 vmax)%F = true) /\
    ((v2 vmin <? v2 p)%F = true /\ (v2 p <=? v2 vmax)%F = true)).
  { intros p. unfold half_open. cbn [forallb].
    rewrite !andb_true_iff. tauto. }
  unfold fill. rewrite List.filter_In. fold all_nodes. split.
  - intros [_ Hp]. now apply Hh in Hp.
  - intros Hp. split; [|now apply Hh].
    unfold candidates. apply in_flat_map. exists (node, abs_pos).
    split; [exact Hn|]. cbn [fst snd]. apply in_map_iff.
    exists atom. split; [reflexivity | exact Ha].
Qed.

End BoxFiller.

Section Builder.
Context {F : Type} `{Scalar F} `{Collab F}.

(** ** The bounds of the box *)

(** [get_box_to_fill] changes nothing, whether it returns or raises. *)
Lemma get_box_to_fill_pure dim_arg upper z w :
  snd (get_box_to_fill dim_arg upper z w) = w.
Proof.
  unfold get_box_to_fill, bind, get, assert.
  destruct (py_in upper _); [|reflexivity].
  unfold ret. destruct (is_True upper); [reflexivity|].
  destruct (is_False upper); reflexivity.
Qed.

(** The bounds do not depend on the atoms the model holds. *)
Lemma get_box_to_fill_atoms dim_arg upper z w a :
  get_box_to_fill dim_arg upper z (set_atoms a w) =
  (fst (get_box_to_fill dim_arg upper z w), set_atoms a w).
Proof.
  unfold get_box_to_fill, bind, get, assert.
  destruct (py_in upper _); [|reflexivity].
  unfold ret. cbn [self set_atoms dim].
  destruct (is_True upper); [reflexivity|].
  destruct (is_False upper); reflexivity.
Qed.

(** The bounds depend on the model through [self.dim] only. *)
Lemma get_box_to_fill_dim a1 a2 upper z w1 w2 :
  dim (self w1) = dim (self w2) ->
  fst (get_box_to_fill a1 upper z w1) = fst (get_box_to_fill a2 upper z w2).
Proof.
  intros E. unfold get_box_to_fill, bind, get, assert. rewrite E.
  destruct (py_in upper _); [|reflexivity].
  unfold ret. destruct (is_True upper); [reflexivity|].
  destruct (is_False upper); reflexivity.
Qed.

(** The bounds for the three recognized states, without margin for the
    two halves. *)
Lemma get_box_to_fill_None dim_arg z w :
  get_box_to_fill dim_arg None_ z w =
  (Ok (full_vmin (dim (self w)), full_vmax (dim (self w))), w).
Proof. reflexivity. Qed.

Lemma get_box_to_fill_True dim_arg z w :
  truthy z = false ->
  get_box_to_fill dim_arg (Bool_ true) z w =
  (Ok (upper_vmin (dim (self w)), full_vmax (dim (self w))), w).
Proof.
  intros E. unfold get_box_to_fill, bind, get.
  cbn [py_in existsb py_eq orb assert is_True Z_of_bool Z.eqb].
  rewrite E. reflexivity.
Qed.

Lemma get_box_to_fill_False dim_arg z w :
  truthy z = false ->
  get_box_to_fill dim_arg (Bool_ false) z w =
  (Ok (full_vmin (dim (self w)), lower_vmax (dim (self w))), w).
Proof.
  intros E. unfold get_box_to_fill, bind, get.
  cbn [py_in existsb py_eq orb assert is_True is_False Z_of_bool Z.eqb].
  rewrite E. reflexivity.
Qed.

(** C2.  With [upper=None], [get_box_to_fill] returns, on each of the three
    axes, [vmin = -dim/2 + 0.001] and [vmax = dim/2 + 0.001], where [dim]
    is the dimensions vector the builder was constructed with (the method
    reads [self.dim], whatever is passed as its parameter [dim]); the
    model and the store are left as they were. *)
Theorem get_box_to_fill_full lattice d rot title s dim_arg z_margin :
  let w := mkWorld (RotatedMonocrystal lattice d rot title) s in
  get_box_to_fill dim_arg None_ z_margin w =
  (Ok (V3 (- v0 d / lit 2 + lit 0.001)%F
          (- v1 d / lit 2 + lit 0.001)%F
          (- v2 d / lit 2 + lit 0.001)%F,
       V3 (v0 d / lit 2 + lit 0.001)%F
          (v1 d / lit 2 + lit 0.001)%F
          (v2 d / lit 2 + lit 0.001)%F),
   w).
Proof.
  intros w. unfold get_box_to_fill, bind, get.
  cbn [py_in existsb py_eq orb assert is_True is_False].
  reflexivity.
Qed.

(** C3.  With [upper=True] the bounds are those of the full box except that
    [vmin] on the third axis is the epsilon 0.001 and, when [z_margin] is
    not zero, [vmax] on the third axis is reduced by [z_margin/2]; with
    [upper=False] they are those of the full box except that [vmax] on the
    third axis is the epsilon and, when [z_margin] is not zero, [vmin] on
    the third axis is increased by [z_margin/2].  The first two axes are
    those of the full box in both cases. *)
Theorem get_box_to_fill_half w dim_arg z_margin :
  let d := dim (self w) in
  let lo := full_vmin d in
  let hi := full_vmax d in
  get_box_to_fill dim_arg (Bool_ true) z_margin w =
    (Ok (V3 (v0 lo) (v1 lo) (lit 0.001),
         V3 (v0 hi) (v1 hi)
            (if (z_margin =? lit 0)%F then v2 hi
             else (v2 hi - z_margin / lit 2)%F)),
     w) /\
  get_box_to_fill dim_arg (Bool_ false) z_margin w =
    (Ok (V3 (v0 lo) (v1 lo)
            (if (z_margin =? lit 0)%F then v2 lo
             else (v2 lo + z_margin / lit 2)%F),
         V3 (v0 hi) (v1 hi) (lit 0.001)),
     w) /\
  get_box_to_fill dim_arg None_ z_margin w = (Ok (lo, hi), w).
Proof.
  intros d lo hi. unfold get_box_to_fill, bind, get, truthy.
  cbn [py_in existsb py_eq orb assert is_True is_False Z_of_bool Z.eqb].
  repeat split; unfold ret, set2, vmap; cbn [v0 v1 v2];
    destruct (z_margin =? lit 0)%F; reflexivity.
Qed.

(** ** One call of [generate_atoms] *)

Lemma get_box_to_fill_invalid dim_arg upper z w :
  py_in upper recognized = false ->
  get_box_to_fill dim_arg upper z w = (Raise AssertionError, w).
Proof.
  intros E. unfold get_box_to_fill, bind, get, assert.
  unfold recognized in E. now rewrite E.
Qed.

Lemma get_box_to_fill_valid dim_arg upper z w :
  py_in upper recognized = true ->
  exists vmin vmax, get_box_to_fill dim_arg upper z w = (Ok (vmin, vmax), w).
Proof.
  intros E. unfold get_box_to_fill, bind, get, assert.
  unfold recognized in E. rewrite E. unfold ret.
  destruct (is_True upper); [eauto|]. destruct (is_False upper); eauto.
Qed.

(** When the bounds are refused the call stops there: the atom list has
    been emptied and nothing else has happened. *)
Lemma generate_atoms_raises upper z w e :
  fst (get_box_to_fill (dim (self w)) upper z w) = Raise e ->
  generate_atoms upper z w = (Raise e, set_atoms [] w).
Proof.
  intros E. unfold generate_atoms.
  unfold bind at 1. unfold modify at 1.
  unfold bind at 1. unfold get at 1.
  cbn [self set_atoms dim].
  unfold bind at 1. rewrite get_box_to_fill_atoms, E. reflexivity.
Qed.

(** When the bounds are computed and the store holds the cell, the call
    returns the atoms of the box filler run on the oriented cell. *)
Lemma generate_atoms_spec upper z w c vmin vmax :
  cells w !! unit_cell (self w) = Some c ->
  fst (get_box_to_fill (dim (self w)) upper z w) = Ok (vmin, vmax) ->
  generate_atoms upper z w =
  (Ok (fill (oriented (rot_mat (self w)) c)
            (latt.nodes (lattice (self w))) vmin vmax),
   generated c vmin vmax w).
Proof.
  intros Hc E. unfold generate_atoms.
  unfold bind at 1. unfold modify at 1.
  unfold bind at 1. unfold get at 1.
  cbn [self set_atoms dim rot_mat unit_cell].
  unfold bind at 1. rewrite get_box_to_fill_atoms, E.
  set (w0 := set_atoms [] w).
  set (c' := oriented (rot_mat (self w)) c).
  set (w1 := set_cells (<[unit_cell (self w) := c']> (cells w)) w0).
  assert (Hrot :
    match rot_mat (self w) with
    | Some r => on_cells (rotate_cell (unit_cell (self w)) r)
    | None => ret tt
    end w0 = (Ok tt, w1)).
  { unfold w1, c', oriented. destruct (rot_mat (self w)) as [r|].
    - unfold on_cells, rotate_cell, bind, load, modify.
      cbn [cells w0 set_atoms]. rewrite Hc. reflexivity.
    - unfold ret. f_equal. unfold set_cells.
      cbn [cells w0 set_atoms self]. now rewrite insert_id. }
  unfold bind at 1. rewrite Hrot.
  assert (Hc1 : cells w1 !! unit_cell (self w1) = Some c').
  { unfold w1. cbn [cells set_cells self w0 set_atoms unit_cell].
    apply lookup_insert_eq. }
  unfold bind at 1. rewrite (do_gen_atoms_spec vmin vmax c' w1 Hc1).
  unfold bind at 1. unfold get at 1. unfold ret.
  unfold generated. fold c'. fold w0. fold w1.
  reflexivity.
Qed.

(** The box filler never writes to the store. *)
Lemma do_gen_atoms_cells vmin vmax w :
  cells (snd (_do_gen_atoms vmin vmax w)) = cells w.
Proof.
  destruct (cells w !! unit_cell (self w)) as [c|] eqn:E.
  - now rewrite (do_gen_atoms_spec vmin vmax c w E).
  - unfold _do_gen_atoms, compute_scope_m.
    unfold bind at 1. unfold modify at 1.
    unfold bind at 1. unfold bind at 1. unfold get at 1.
    unfold bind at 1. unfold on_cells at 1, load at 1.
    cbn [cells self set_min_max unit_cell]. now rewrite E.
Qed.

(** A call of [generate_atoms] writes to no object of the store but the
    unit cell of its own model, whether it returns or raises. *)
Lemma generate_atoms_frame upper z w l :
  l <> unit_cell (self w) ->
  cells (snd (generate_atoms upper z w)) !! l = cells w !! l.
Proof.
  intros Hl.
  destruct (fst (get_box_to_fill (dim (self w)) upper z w))
    as [[vmin vmax]|e] eqn:Eb.
  2: { now rewrite (generate_atoms_raises upper z w e Eb). }
  destruct (cells w !! unit_cell (self w)) as [c|] eqn:Ec.
  { rewrite (generate_atoms_spec upper z w c vmin vmax Ec Eb).
    unfold generated, filled.
    cbn [snd cells set_atoms set_scope set_min_max set_cells].
    now apply lookup_insert_ne. }
  unfold generate_atoms.
  unfold bind at 1. unfold modify at 1.
  unfold bind at 1. unfold get at 1.
  cbn [self set_atoms dim rot_mat unit_cell].
  unfold bind at 1. rewrite get_box_to_fill_atoms, Eb.
  set (w0 := set_atoms [] w).
  unfold bind at 1.
  destruct (rot_mat (self w)) as [r|].
  - unfold on_cells, rotate_cell. unfold bind at 1. unfold load.
    cbn [cells w0 set_atoms]. now rewrite Ec.
  - unfold ret at 1. unfold bind at 1.
    pose proof (do_gen_atoms_cells vmin vmax w0) as Hg.
    destruct (_do_gen_atoms vmin vmax w0) as [[[]|e] w1]; cbn [snd] in Hg.
    + unfold bind, get, ret. cbn [snd]. now rewrite Hg.
    + cbn [snd]. now rewrite Hg.
Qed.

(** Values that pass the assertion without being one of the three
    singletons: [1 == True] and [0 == False]. *)
Lemma get_box_to_fill_number dim_arg (b : bool) z w :
  get_box_to_fill dim_arg (Int_ (Z_of_bool b)) z w =
  get_box_to_fill dim_arg None_ z w.
Proof.
  unfold get_box_to_fill, bind, get.
  destruct b; reflexivity.
Qed.

(** A value outside the three recognized states, and not equal to one of
    them, stops the call at the assertion: the atom list of the model is
    empty and the store is as it was. *)
Lemma generate_atoms_rejects upper z w :
  py_in upper recognized = false ->
  generate_atoms upper z w = (Raise AssertionError, set_atoms [] w) /\
  atoms (self (snd (generate_atoms upper z w))) = [] /\
  cells (snd (generate_atoms upper z w)) = cells w.
Proof.
  intros E.
  assert (G : generate_atoms upper z w
              = (Raise AssertionError, set_atoms [] w)).
  { apply generate_atoms_raises.
    now rewrite (get_box_to_fill_invalid _ _ _ _ E). }
  rewrite G. repeat split.
Qed.

(** C6, at the input where the code departs from it.  The integers 1 and 0
    are not [True], [False] or [None], yet the assertion lets them pass
    (they are equal to [True] and to [False]); no branch is then taken, so
    the call runs exactly as with [upper=None]: full box, no error. *)
Theorem generate_atoms_accepts_one w z :
  (is_True (@Int_ F 1) = false /\ is_False (@Int_ F 1) = false /\
   is_None (@Int_ F 1) = false) /\
  get_box_to_fill (dim (self w)) (Int_ 1) z w =
    (Ok (full_vmin (dim (self w)), full_vmax (dim (self w))), w) /\
  generate_atoms (Int_ 1) z w = generate_atoms None_ z w /\
  generate_atoms (Int_ 0) z w = generate_atoms None_ z w.
Proof.
  split; [repeat split|]. split; [reflexivity|].
  split; unfold generate_atoms;
    unfold bind at 1; unfold modify at 1;
    unfold bind at 1; unfold get at 1;
    unfold bind at 1;
    [ rewrite (get_box_to_fill_number _ true) |
      rewrite (get_box_to_fill_number _ false) ];
    reflexivity.
Qed.

(** ** Repeated calls *)

(** C10.  A builder constructed with a rotation matrix [r] applies it to
    the unit cell of its lattice (the cell object the lattice and the model
    share) in every call of [generate_atoms]: after [n] calls the cell has
    been rotated [n] times, and call number [n+1] fills with the cell
    rotated [n+1] times, so successive calls with the same arguments fill
    with cells one rotation apart. *)
Theorem generate_atoms_rotation_compounds lat d r title s c upper z n :
  s !! latt.unit_cell lat = Some c ->
  py_in upper recognized = true ->
  let w := mkWorld (RotatedMonocrystal lat d (Some r) title) s in
  let turn := fun c => rotate c r in
  exists w_n,
    generate_n n upper z w = (Ok tt, w_n) /\
    cells w_n !! latt.unit_cell lat = Some (Nat.iter n turn c) /\
    exists vmin vmax w',
      generate_atoms upper z w_n =
        (Ok (fill (Nat.iter (Datatypes.S n) turn c) (latt.nodes lat)
                  vmin vmax), w') /\
      cells w' !! latt.unit_cell lat =
        Some (Nat.iter (Datatypes.S n) turn c).
Proof.
  intros Hc Hu w turn.
  destruct (get_box_to_fill_valid d upper z w Hu) as (vmin & vmax & Hb).
  assert (Hbox : forall w1, dim (self w1) = d ->
            fst (get_box_to_fill (dim (self w1)) upper z w1) = Ok (vmin, vmax)).
  { intros w1 Hd.
    rewrite (get_box_to_fill_dim _ d upper z w1 w) by exact Hd.
    now rewrite Hb. }
  assert (Hn : exists w_n,
    generate_n n upper z w = (Ok tt, w_n) /\
    cells w_n !! latt.unit_cell lat = Some (Nat.iter n turn c) /\
    lattice (self w_n) = lat /\
    unit_cell (self w_n) = latt.unit_cell lat /\
    rot_mat (self w_n) = Some r /\ dim (self w_n) = d).
  { induction n as [|n IH].
    - exists w. repeat split; assumption.
    - destruct IH as (w_n & Hrun & Hcell & Hl & Hu' & Hr & Hd).
      rewrite <- Hu' in Hcell.
      pose proof (generate_atoms_spec upper z w_n _ vmin vmax Hcell
                    (Hbox w_n Hd)) as G.
      exists (generated (Nat.iter n turn c) vmin vmax w_n).
      split.
      { cbn [generate_n]. unfold bind at 1. rewrite Hrun.
        unfold bind at 1. rewrite G. reflexivity. }
      unfold generated, filled.
      cbn [self cells set_atoms set_scope set_min_max set_cells
           lattice unit_cell rot_mat dim].
      rewrite Hr, Hu'. repeat split; try assumption.
      apply lookup_insert_eq. }
  destruct Hn as (w_n & Hrun & Hcell & Hl & Hu' & Hr & Hd).
  exists w_n. split; [exact Hrun|]. split; [exact Hcell|].
  rewrite <- Hu' in Hcell.
  pose proof (generate_atoms_spec upper z w_n _ vmin vmax Hcell
                (Hbox w_n Hd)) as G.
  rewrite Hr, Hl in G. cbn [oriented] in G.
  exists vmin, vmax, (generated (Nat.iter n turn c) vmin vmax w_n).
  split; [exact G|].
  unfold generated, filled.
  cbn [self cells set_atoms set_scope set_min_max set_cells unit_cell].
  rewrite Hr, Hu'. apply lookup_insert_eq.
Qed.

End Builder.

Section Driver.
Context {F : Type} `{Scalar F} `{Collab F}.

(** ** The driver *)

Lemma load_some l (c : UnitCell) (s : store) :
  s !! l = Some c -> load l s = (Ok c, s).
Proof. intros E. unfold load. now rewrite E. Qed.

Lemma load_none l (s : store) :
  s !! l = None -> load l s = (Raise DanglingRef, s).
Proof. intros E. unfold load. now rewrite E. Qed.

(** The copy is a new object: its reference is not in use. *)
Lemma fresh_unused (s : store) : s !! fresh (dom s) = None.
Proof. apply not_elem_of_dom, is_fresh. Qed.

Lemma deepcopy_spec (lat : latt.CrystalLattice F) c (s : store) :
  s !! latt.unit_cell lat = Some c ->
  deepcopy lat s =
  (Ok (latt.mkCrystalLattice (fresh (dom s)) (latt.nodes lat)),
   <[fresh (dom s) := c]> s).
Proof.
  intros E. unfold deepcopy.
  rewrite (bind_ok _ _ _ _ _ (load_some _ _ _ E)).
  reflexivity.
Qed.

(** A run of [mono] on a lattice whose cell the store holds: the builder
    works on a copy of the lattice, and the store gains the copied cell. *)
Lemma mono_spec (lat : latt.CrystalLattice F) nx ny nz (s : store) c :
  s !! latt.unit_cell lat = Some c ->
  let d := mono_dim c nx ny nz in
  let copy := latt.mkCrystalLattice (fresh (dom s)) (latt.nodes lat) in
  let s1 := <[fresh (dom s) := c]> s in
  let config := RotatedMonocrystal copy d None (Some get_command_line) in
  mono lat nx ny nz s =
  (Ok (self (generated c (full_vmin d) (full_vmax d) (mkWorld config s1))),
   s1).
Proof.
  intros E d copy s1 config. unfold mono.
  rewrite (bind_ok _ _ _ _ _ (load_some _ _ _ E)).
  rewrite (bind_ok _ _ _ _ _ (deepcopy_spec _ _ _ E)).
  fold d. fold copy. fold s1. fold config.
  assert (Hc : cells (mkWorld config s1) !! unit_cell (self (mkWorld config s1))
               = Some c) by apply lookup_insert_eq.
  assert (Hb : fst (get_box_to_fill (dim (self (mkWorld config s1))) None_
                      (lit 0) (mkWorld config s1))
               = Ok (full_vmin d, full_vmax d)) by reflexivity.
  pose proof (generate_atoms_spec None_ (lit 0) _ c _ _ Hc Hb) as G.
  unfold config, d, mono_dim in G. cbv zeta in G.
  unfold bind at 1. unfold call. rewrite G. unfold ret.
  f_equal. unfold generated, filled.
  cbn [cells set_atoms set_scope set_min_max set_cells self rot_mat
       RotatedMonocrystal oriented unit_cell latt.unit_cell copy].
  unfold s1. apply insert_insert_eq.
Qed.

Lemma mono_dangling (lat : latt.CrystalLattice F) nx ny nz (s : store) :
  s !! latt.unit_cell lat = None ->
  mono lat nx ny nz s = (Raise DanglingRef, s).
Proof.
  intros E. unfold mono.
  now rewrite (bind_raise _ _ _ _ _ (load_none _ _ E)).
Qed.

(** C8.  [mono] leaves its lattice argument as it was: the unit cell of the
    caller's lattice, and every other object of the store, is the same
    after the run as before.  The builder is given a deep copy: its
    lattice has the nodes of the caller's lattice and a unit cell object
    of its own, new in the store, with the contents of the caller's cell.
    When the store holds the caller's cell, the run returns. *)
Theorem mono_preserves_lattice (lat : latt.CrystalLattice F) nx ny nz
  (s : store) :
  let s' := snd (mono lat nx ny nz s) in
  s' !! latt.unit_cell lat = s !! latt.unit_cell lat /\
  (forall l, is_Some (s !! l) -> s' !! l = s !! l) /\
  (forall config,
     fst (mono lat nx ny nz s) = Ok config ->
     s !! latt.unit_cell (lattice config) = None /\
     unit_cell config = latt.unit_cell (lattice config) /\
     s' !! unit_cell config = s !! latt.unit_cell lat /\
     latt.nodes (lattice config) = latt.nodes lat) /\
  (forall c,
     s !! latt.unit_cell lat = Some c ->
     exists config, fst (mono lat nx ny nz s) = Ok config).
Proof.
  intros s'. unfold s'. clear s'.
  destruct (s !! latt.unit_cell lat) as [c|] eqn:E.
  - rewrite (mono_spec lat nx ny nz s c E). cbn [fst snd].
    assert (Hne : forall l, is_Some (s !! l) -> fresh (dom s) <> l).
    { intros l [x Hx] <-. rewrite fresh_unused in Hx. discriminate. }
    split; [|split; [|split]].
    + rewrite lookup_insert_ne; [exact E|]. apply Hne. now rewrite E.
    + intros l Hl. apply lookup_insert_ne, Hne, Hl.
    + intros config [= <-].
      unfold generated, filled.
      cbn [self set_atoms set_scope set_min_max set_cells lattice unit_cell
           RotatedMonocrystal latt.unit_cell latt.nodes].
      repeat split.
      * apply fresh_unused.
      * apply lookup_insert_eq.
    + intros c' _. eexists. reflexivity.
  - rewrite (mono_dangling lat nx ny nz s E). cbn [fst snd].
    split; [exact E|]. split; [reflexivity|].
    split; [intros config [=]|intros c' [=]].
Qed.

End Driver.

(** ** The lookup *)

Section Strings.

Lemma lower_byte_idem p c : lower_byte p (lower_byte p c) = lower_byte p c.
Proof. destruct p; destruct c as [[] [] [] [] [] [] [] []]; reflexivity. Qed.

Lemma lower_byte_c3 p c :
  (nat_of_ascii (lower_byte p c) =? 195)%nat = (nat_of_ascii c =? 195)%nat.
Proof. destruct p; destruct c as [[] [] [] [] [] [] [] []]; reflexivity. Qed.

Lemma lower_from_idem s :
  forall p, lower_from p (lower_from p s) = lower_from p s.
Proof.
  induction s as [|c s IH]; intros p; [reflexivity|].
  cbn [lower_from]. now rewrite lower_byte_idem, lower_byte_c3, IH.
Qed.

Lemma length_lower_from s :
  forall p, String.length (lower_from p s) = String.length s.
Proof.
  induction s as [|c s IH]; intros p; [reflexivity|].
  cbn [lower_from String.length]. now rewrite IH.
Qed.

(** A piece of a lowercased string is the piece lowercased, from the state
    the bytes before it leave. *)
Lemma substring_lower_from s :
  forall p n m,
    exists q, substring n m (lower_from p s) = lower_from q (substring n m s).
Proof.
  induction s as [|c s IH]; intros p n m.
  - exists p. destruct n, m; reflexivity.
  - destruct n as [|n]; cbn [lower_from substring].
    + destruct m as [|m]; [exists p; reflexivity|].
      exists p. cbn [lower_from]. f_equal.
      clear IH. revert c m.
      induction s as [|c' s IH']; intros c m; [destruct m; reflexivity|].
      destruct m as [|m]; [reflexivity|].
      cbn [lower_from substring]. f_equal. apply IH'.
    + apply IH.
Qed.

Lemma lower_from_cif q : lower_from q ".cif" = ".cif".
Proof. destruct q; reflexivity. Qed.

Lemma latin_lower_idem s : latin_lower (latin_lower s) = latin_lower s.
Proof. apply lower_from_idem. Qed.

(** A name that ends in [.cif] still does after lowercasing. *)
Lemma latin_lower_cif s :
  endswith s ".cif" = true -> endswith (latin_lower s) ".cif" = true.
Proof.
  unfold endswith, latin_lower. rewrite length_lower_from.
  destruct (String.length ".cif" <=? String.length s)%nat; [|discriminate].
  rewrite !String.eqb_eq. intros E.
  destruct (substring_lower_from s false
              (String.length s - String.length ".cif")
              (String.length ".cif")) as [q Hq].
  rewrite Hq, E. apply lower_from_cif.
Qed.

#[export] Instance latin_laws : UnicodeLaws := {|
  lower_idem := latin_lower_idem;
  endswith_cif_lower := latin_lower_cif
|}.

Lemma prefix_refl s : String.prefix s s = true.
Proof.
  induction s as [|c s IH]; [reflexivity|].
  simpl. destruct (ascii_dec c c); [exact IH | contradiction].
Qed.

Lemma str_in_self s : str_in s s = true.
Proof.
  destruct s as [|a s]; [reflexivity|].
  change (String.prefix (String a s) (String a s) || str_in (String a s) s
          = true).
  now rewrite prefix_refl.
Qed.

Lemma str_in_suffix p s : str_in s (p ++ s) = true.
Proof.
  induction p as [|c p IH].
  - apply str_in_self.
  - change (String.prefix s (String c (p ++ s)) || str_in s (p ++ s) = true).
    rewrite IH. apply orb_true_r.
Qed.

End Strings.

Section Lookup.
Context {F : Type} `{Scalar F} `{Collab F} {U : Unicode} {UL : @UnicodeLaws U}.

(** C7, as the code has it.  For a name that does not end in [.cif] and
    whose lowercased form is not in the catalog, [get_named_lattice] raises
    [ValueError] with the message [Unknown lattice: ] followed by the
    lowercased name (the message names the identifier in lower case);
    no lattice is returned, no default is substituted, and the store is
    left as it was. *)
Theorem get_named_lattice_unknown name (s : store) :
  endswith name ".cif" = false ->
  in_catalog (lower name) = false ->
  get_named_lattice name s =
    (Raise (ValueError ("Unknown lattice: " ++ lower name)), s) /\
  str_in (lower name) ("Unknown lattice: " ++ lower name) = true.
Proof.
  intros Hcif Hcat. split; [|apply str_in_suffix].
  unfold in_catalog, catalog_names in Hcat. cbn [existsb] in Hcat.
  repeat match type of Hcat with
         | (_ || _)%bool = false =>
             apply orb_false_elim in Hcat;
             let E := fresh "E" in destruct Hcat as [E Hcat]
         end.
  repeat match goal with
         | E : (_ || _)%bool = false |- _ =>
             apply orb_false_elim in E;
             let E' := fresh "E" in destruct E as [E' E]
         end.
  unfold get_named_lattice. rewrite Hcif. cbv zeta.
  repeat match goal with
         | E : String.eqb _ _ = false |- _ => rewrite E; clear E
         end.
  rewrite Hcat. reflexivity.
Qed.

(** C9, as the code has it.  For a name whose lowercased form does not end
    in [.cif] (so the name does not either), the lookup of the name and the
    lookup of the lowercased name are the same computation: from the same
    store both return the same lattice and leave the same store, or both
    raise the same exception. *)
Theorem get_named_lattice_lower name (s : store) :
  endswith (lower name) ".cif" = false ->
  get_named_lattice name s = get_named_lattice (lower name) s.
Proof.
  intros Hl.
  assert (Hn : endswith name ".cif" = false).
  { destruct (endswith name ".cif") eqn:E; [|reflexivity].
    apply endswith_cif_lower in E. congruence. }
  unfold get_named_lattice. rewrite Hn, Hl, lower_idem. reflexivity.
Qed.

End Lookup.

(** ** The comparisons of the two instances *)

Section RationalOrder.

Lemma fltb_Q (x y : Q) : (x <? y)%F = true <-> (x < y)%Q.
Proof.
  cbn [fltb Q_scalar]. rewrite negb_true_iff. split.
  - intros E. apply Qnot_le_lt. intros Hle.
    apply Qle_bool_iff in Hle. congruence.
  - intros Hlt. destruct (Qle_bool y x) eqn:E; [|reflexivity].
    apply Qle_bool_iff in E. exfalso. revert E. now apply Qlt_not_le.
Qed.

Lemma fleb_Q (x y : Q) : (x <=? y)%F = true <-> (x <= y)%Q.
Proof. apply Qle_bool_iff. Qed.

Lemma feqb_Q (x y : Q) : (x =? y)%F = true <-> (x == y)%Q.
Proof. apply Qeq_bool_iff. Qed.

Lemma fltb_Q_false (x y : Q) : (x <? y)%F = false <-> (y <= x)%Q.
Proof.
  rewrite <- not_true_iff_false, fltb_Q. split.
  - apply Qnot_lt_le.
  - intros Hle Hlt. revert Hlt. now apply Qle_not_lt.
Qed.

Lemma fleb_Q_false (x y : Q) : (x <=? y)%F = false <-> (y < x)%Q.
Proof.
  rewrite <- not_true_iff_false, fleb_Q. split.
  - apply Qnot_le_lt.
  - intros Hlt Hle. revert Hle. now apply Qlt_not_le.
Qed.

#[export] Instance Q_order : ScalarOrder Q.
Proof.
  split.
  - reflexivity.
  - intros x y _. split; apply feqb_Q; reflexivity.
  - intros x y _. split; apply feqb_Q; reflexivity.
  - intros x y _. split; apply feqb_Q; reflexivity.
  - intros x _. apply fleb_Q, Qle_refl.
  - intros x y E. apply fltb_Q in E. apply fleb_Q. now apply Qlt_le_weak.
  - intros x y _ _ E. apply fltb_Q_false in E. now apply fleb_Q.
  - intros x y _ _ E. apply fleb_Q_false in E. now apply fltb_Q.
  - intros x y z E1 E2. apply fleb_Q in E1, E2. apply fleb_Q.
    eapply Qle_trans; eassumption.
  - intros x y z E1 E2. apply fleb_Q in E1. apply fltb_Q in E2. apply fltb_Q.
    eapply Qle_lt_trans; eassumption.
  - intros x y E1 E2. apply fltb_Q in E1. apply fleb_Q in E2.
    revert E2. now apply Qlt_not_le.
  - intros x _. apply feqb_Q. cbn [fadd lit Q_scalar]. apply Qplus_0_r.
Qed.

End RationalOrder.

Section Binary64Order.

(** A number of binary64 by its place in the order: the sign class first,
    then exponent and mantissa, both negated for a negative number.  The
    two zeros have one key; a NaN has none. *)
Definition key (x : spec_float) : option (Z * Z * Z) :=
  match x with
  | S754_nan => None
  | S754_zero _ => Some (0, 0, 0)%Z
  | S754_infinity s => Some (if s then (-2)%Z else 2%Z, 0%Z, 0%Z)
  | S754_finite s m e =>
      Some (if s then ((-1)%Z, (- e)%Z, Zneg m) else (1%Z, e, Zpos m))
  end.

Definition key_cmp (a b : Z * Z * Z) : comparison :=
  let '(a1, a2, a3) := a in
  let '(b1, b2, b3) := b in
  match (a1 ?= b1)%Z with
  | Eq => match (a2 ?= b2)%Z with
          | Eq => (a3 ?= b3)%Z
          | c => c
          end
  | c => c
  end.

Definition key_lt (a b : Z * Z * Z) : Prop :=
  let '(a1, a2, a3) := a in
  let '(b1, b2, b3) := b in
  (a1 < b1 \/ (a1 = b1 /\ (a2 < b2 \/ (a2 = b2 /\ a3 < b3))))%Z.

Definition key_eq (a b : Z * Z * Z) : Prop :=
  let '(a1, a2, a3) := a in
  let '(b1, b2, b3) := b in
  (a1 = b1 /\ a2 = b2 /\ a3 = b3)%Z.

Lemma SFcompare_key x y :
  SFcompare x y =
  match key x, key y with
  | Some a, Some b => Some (key_cmp a b)
  | _, _ => None
  end.
Proof.
  destruct x as [sx|sx| |sx mx ex], y as [sy|sy| |sy my ey];
    try destruct sx; try destruct sy; try reflexivity.
  cbn [SFcompare key key_cmp Z.compare].
  rewrite Z.compare_opp, (Z.compare_antisym ex ey).
  destruct (ex ?= ey)%Z; reflexivity.
Qed.

Lemma key_cmp_spec a b :
  match key_cmp a b with
  | Lt => key_lt a b
  | Eq => key_eq a b
  | Gt => key_lt b a
  end.
Proof.
  destruct a as [[a1 a2] a3], b as [[b1 b2] b3].
  unfold key_cmp, key_lt, key_eq.
  destruct (Z.compare_spec a1 b1); [|lia|lia].
  destruct (Z.compare_spec a2 b2); [|lia|lia].
  destruct (Z.compare_spec a3 b3); lia.
Qed.

Lemma key_lt_irrefl a b : key_lt a b -> key_lt b a -> False.
Proof.
  destruct a as [[a1 a2] a3], b as [[b1 b2] b3]. unfold key_lt. lia.
Qed.

Lemma key_lt_eq a b : key_lt a b -> key_eq a b -> False.
Proof.
  destruct a as [[a1 a2] a3], b as [[b1 b2] b3]. unfold key_lt, key_eq. lia.
Qed.

Lemma key_lt_eq' a b : key_lt a b -> key_eq b a -> False.
Proof.
  destruct a as [[a1 a2] a3], b as [[b1 b2] b3]. unfold key_lt, key_eq. lia.
Qed.

Definition fkey (x : float) : option (Z * Z * Z) := key (Prim2SF x).

Lemma float_ltb (x y : float) :
  PrimFloat.ltb x y = true <->
  exists a b, fkey x = Some a /\ fkey y = Some b /\ key_lt a b.
Proof.
  rewrite FloatAxioms.ltb_spec. unfold SFltb, fkey. rewrite SFcompare_key.
  destruct (key (Prim2SF x)) as [a|], (key (Prim2SF y)) as [b|];
    try (split; [discriminate|intros (? & ? & ? & ? & ?); discriminate]).
  pose proof (key_cmp_spec a b) as Hs.
  destruct (key_cmp a b); split; try discriminate; try reflexivity.
  - intros (a' & b' & [= <-] & [= <-] & Hlt). exfalso.
    eapply key_lt_eq; eassumption.
  - intros _. exists a, b. auto.
  - intros (a' & b' & [= <-] & [= <-] & Hlt). exfalso.
    eapply key_lt_irrefl; eassumption.
Qed.

Lemma float_eqb (x y : float) :
  PrimFloat.eqb x y = true <->
  exists a b, fkey x = Some a /\ fkey y = Some b /\ key_eq a b.
Proof.
  rewrite FloatAxioms.eqb_spec. unfold SFeqb, fkey. rewrite SFcompare_key.
  destruct (key (Prim2SF x)) as [a|], (key (Prim2SF y)) as [b|];
    try (split; [discriminate|intros (? & ? & ? & ? & ?); discriminate]).
  pose proof (key_cmp_spec a b) as Hs.
  destruct (key_cmp a b); split; try discriminate; try reflexivity.
  - intros _. exists a, b. auto.
  - intros (a' & b' & [= <-] & [= <-] & He). exfalso.
    eapply key_lt_eq; eassumption.
  - intros (a' & b' & [= <-] & [= <-] & He). exfalso.
    eapply key_lt_eq'; eassumption.
Qed.

Lemma float_leb (x y : float) :
  PrimFloat.leb x y = true <->
  exists a b,
    fkey x = Some a /\ fkey y = Some b /\ (key_lt a b \/ key_eq a b).
Proof.
  rewrite FloatAxioms.leb_spec. unfold SFleb, fkey. rewrite SFcompare_key.
  destruct (key (Prim2SF x)) as [a|], (key (Prim2SF y)) as [b|];
    try (split; [discriminate|intros (? & ? & ? & ? & ?); discriminate]).
  pose proof (key_cmp_spec a b) as Hs.
  destruct (key_cmp a b); split; try discriminate; try reflexivity.
  - intros _. exists a, b. auto.
  - intros _. exists a, b. auto.
  - intros (a' & b' & [= <-] & [= <-] & [Hl|He]); exfalso.
    + eapply key_lt_irrefl; eassumption.
    + eapply key_lt_eq'; eassumption.
Qed.

Lemma float_number (x : float) :
  PrimFloat.eqb x x = true <-> exists a, fkey x = Some a.
Proof.
  rewrite float_eqb. split.
  - intros (a & _ & Ha & _). eauto.
  - intros (a & Ha). exists a, a. split; [exact Ha|]. split; [exact Ha|].
    destruct a as [[a1 a2] a3]. unfold key_eq. lia.
Qed.

Lemma float_lit_zero : float_lit 0 = PrimFloat.zero.
Proof. reflexivity. Qed.

Lemma float_add_zero (x : float) :
  PrimFloat.eqb x x = true ->
  PrimFloat.eqb (PrimFloat.add x (float_lit 0)) x = true.
Proof.
  intros Hx. apply float_number in Hx. destruct Hx as (a & Ha).
  apply float_eqb. exists a, a.
  split; [|split; [exact Ha|]].
  - unfold fkey in *. rewrite FloatAxioms.add_spec, float_lit_zero.
    change (Prim2SF PrimFloat.zero) with (S754_zero false).
    destruct (Prim2SF x) as [s|s| |s m e]; try discriminate Ha;
      try destruct s; exact Ha.
  - destruct a as [[a1 a2] a3]. unfold key_eq. lia.
Qed.

Ltac keys :=
  repeat match goal with
         | H : PrimFloat.ltb _ _ = true |- _ =>
             apply float_ltb in H; destruct H as (? & ? & ? & ? & ?)
         | H : PrimFloat.leb _ _ = true |- _ =>
             apply float_leb in H; destruct H as (? & ? & ? & ? & ?)
         | H : PrimFloat.eqb _ _ = true |- _ =>
             apply float_eqb in H; destruct H as (? & ? & ? & ? & ?)
         end;
  repeat match goal with
         | H1 : fkey ?x = Some ?a, H2 : fkey ?x = Some ?b |- _ =>
             rewrite H1 in H2; injection H2 as <-
         end.

Ltac key_arith :=
  repeat match goal with
         | a : (Z * Z * Z)%type |- _ => destruct a as [[? ?] ?]
         end;
  unfold key_lt, key_eq in *; lia.

#[export] Instance float_order : ScalarOrder float.
Proof.
  split; cbn [feqb fltb fleb fadd lit float_scalar].
  - reflexivity.
  - intros x y E. keys.
    split; apply float_number; eauto.
  - intros x y E. keys. split; apply float_number; eauto.
  - intros x y E. keys. split; apply float_number; eauto.
  - intros x E. keys. apply float_leb. do 2 eexists.
    split; [eassumption|]. split; [eassumption|]. right. key_arith.
  - intros x y E. keys. apply float_leb. do 2 eexists.
    split; [eassumption|]. split; [eassumption|]. now left.
  - intros x y Ex Ey E. keys.
    apply float_leb. do 2 eexists.
    split; [eassumption|]. split; [eassumption|].
    match goal with
    | Hx : fkey x = Some ?a, Hy : fkey y = Some ?b |- _ =>
        pose proof (key_cmp_spec a b) as Hs;
        destruct (key_cmp a b)
    end.
    + right. key_arith.
    + exfalso. apply not_true_iff_false in E. apply E.
      apply float_ltb. eauto.
    + now left.
  - intros x y Ex Ey E. keys.
    apply float_ltb. do 2 eexists.
    split; [eassumption|]. split; [eassumption|].
    match goal with
    | Hx : fkey x = Some ?a, Hy : fkey y = Some ?b |- _ =>
        pose proof (key_cmp_spec a b) as Hs;
        destruct (key_cmp a b)
    end.
    + exfalso. apply not_true_iff_false in E. apply E.
      apply float_leb. eauto 6.
    + exfalso. apply not_true_iff_false in E. apply E.
      apply float_leb. eauto 6.
    + exact Hs.
  - intros x y z E1 E2. keys. apply float_leb. do 2 eexists.
    split; [eassumption|]. split; [eassumption|]. key_arith.
  - intros x y z E1 E2. keys. apply float_ltb. do 2 eexists.
    split; [eassumption|]. split; [eassumption|]. key_arith.
  - intros x y E1 E2. keys. key_arith.
  - apply float_add_zero.
Qed.

End Binary64Order.

(** ** The two halves of a bicrystal *)

Section Fill.
Context {F : Type} `{Scalar F} `{Collab F}.

Lemma in_fill c nodes vmin vmax (a : mdprim.Atom F) :
  In a (fill c nodes vmin vmax) <->
  exists np atom,
    In np (get_all_nodes (compute_scope c nodes (box_vertices vmin vmax))
                         nodes) /\
    In atom (latt.atoms_in_node (fst np)) /\
    a = candidate c (snd np) atom /\
    half_open vmin vmax (mdprim.pos a) = true.
Proof.
  unfold fill, candidates. rewrite List.filter_In, in_flat_map. split.
  - intros [(np & Hnp & Ha) Hb]. apply in_map_iff in Ha.
    destruct Ha as (atom & <- & Hatom). exists np, atom. auto.
  - intros (np & atom & Hnp & Hatom & -> & Hb). split; [|exact Hb].
    exists np. split; [exact Hnp|]. apply in_map_iff. eauto.
Qed.

(** Under the contract, the atoms a run keeps are the atoms of the
    infinite lattice that lie in the box. *)
Lemma in_fill_contract c nodes vmin vmax (a : mdprim.Atom F) :
  scope_contract c nodes vmin vmax ->
  In a (fill c nodes vmin vmax) <->
  exists np atom,
    is_replica nodes np /\
    In atom (latt.atoms_in_node (fst np)) /\
    a = candidate c (snd np) atom /\
    half_open vmin vmax (mdprim.pos a) = true.
Proof.
  intros [Hsound Hcomplete]. rewrite in_fill. split.
  - intros (np & atom & Hnp & Hatom & Ha & Hb).
    exists np, atom. auto.
  - intros (np & atom & Hnp & Hatom & Ha & Hb).
    exists np, atom.
    split; [|split; [exact Hatom|split; [exact Ha|exact Hb]]].
    apply (Hcomplete np atom Hnp Hatom). now rewrite <- Ha.
Qed.

End Fill.

Section Slab.
Context {F : Type} `{Scalar F} {SO : ScalarOrder F}.

Lemma isnan_true (x : F) : isnan x = true -> (x =? x)%F = false.
Proof. unfold isnan. now rewrite negb_true_iff. Qed.

(** A slab cut by a plane is the disjoint union of its two parts. *)
Lemma slab_split (lo mid hi p : F) :
  cut_by lo mid hi = true ->
  (lo <? p)%F && (p <=? hi)%F = true <->
  (mid <? p)%F && (p <=? hi)%F = true \/
  (lo <? p)%F && (p <=? mid)%F = true.
Proof.
  unfold cut_by. rewrite !orb_true_iff, !andb_true_iff.
  intros [[[Hlm Hmh]|[Hhm Hml]]|[Hl Hh]].
  - split.
    + intros [Hlp Hph]. destruct (mid <? p)%F eqn:E; [now left|right].
      split; [exact Hlp|].
      apply fleb_total; [|now apply (fltb_number lo p)|exact E].
      now apply (fleb_number lo mid).
    + intros [[Hmp Hph]|[Hlp Hpm]].
      * split; [|exact Hph]. now apply (fleb_fltb_trans lo mid p).
      * split; [exact Hlp|]. now apply (fleb_trans p mid hi).
  - assert (Hhl : (hi <=? lo)%F = true) by now apply (fleb_trans hi mid lo).
    split.
    + intros [Hlp Hph]. exfalso.
      apply (fltb_fleb_false lo p Hlp). now apply (fleb_trans p hi lo).
    + intros [[Hmp Hph]|[Hlp Hpm]]; exfalso.
      * apply (fltb_fleb_false mid p Hmp). now apply (fleb_trans p hi mid).
      * apply (fltb_fleb_false lo p Hlp). now apply (fleb_trans p mid lo).
  - apply isnan_true in Hl, Hh. split.
    + intros [Hlp _]. apply fltb_number in Hlp. destruct Hlp. congruence.
    + intros [[_ Hph]|[Hlp _]].
      * apply fleb_number in Hph. destruct Hph. congruence.
      * apply fltb_number in Hlp. destruct Hlp. congruence.
Qed.

Lemma half_open_axes (vmin vmax p : vec F) :
  half_open vmin vmax p = true <->
  (v0 vmin <? v0 p)%F && (v0 p <=? v0 vmax)%F = true /\
  (v1 vmin <? v1 p)%F && (v1 p <=? v1 vmax)%F = true /\
  (v2 vmin <? v2 p)%F && (v2 p <=? v2 vmax)%F = true.
Proof.
  unfold half_open. cbn [forallb]. rewrite andb_true_r.
  rewrite !andb_true_iff. tauto.
Qed.

(** A box cut by a plane across its third axis is the disjoint union of
    the part above and the part below. *)
Lemma half_open_cut (lo hi : vec F) (mid : F) (p : vec F) :
  cut_by (v2 lo) mid (v2 hi) = true ->
  half_open lo hi p = true <->
  half_open (set2 lo mid) hi p = true \/
  half_open lo (set2 hi mid) p = true.
Proof.
  intros Hcut. rewrite !half_open_axes. unfold set2. cbn [v0 v1 v2].
  rewrite (slab_split (v2 lo) mid (v2 hi) (v2 p) Hcut). tauto.
Qed.

Lemma half_open_cut_disjoint (lo hi : vec F) (mid : F) (p : vec F) :
  half_open (set2 lo mid) hi p = true ->
  half_open lo (set2 hi mid) p = true -> False.
Proof.
  rewrite !half_open_axes. unfold set2. cbn [v0 v1 v2].
  rewrite !andb_true_iff.
  intros (_ & _ & [Hu _]) (_ & _ & [_ Hl]).
  exact (fltb_fleb_false mid (v2 p) Hu Hl).
Qed.

End Slab.

Section Bicrystal.
Context {F : Type} `{Scalar F} {SO : ScalarOrder F} `{Collab F}.

(** C5.  With a replica enumeration that honours its contract on the three
    boxes, and for dimensions whose computed z-bounds have the interface
    plane [eps] between them: from the same builder and store, the atoms of
    a call with [upper=True] and no margin together with the atoms of a
    call with [upper=False] and no margin are the atoms of a call with
    [upper=None], and no atom is in both halves.  The comparisons are
    those of the scalar type, binary64 included. *)
Theorem half_boxes_complement (w : World) c :
  cells w !! unit_cell (self w) = Some c ->
  let d := dim (self w) in
  let nodes := latt.nodes (lattice (self w)) in
  let c' := oriented (rot_mat (self w)) c in
  cut_by (v2 (full_vmin d)) eps (v2 (full_vmax d)) = true ->
  scope_contract c' nodes (full_vmin d) (full_vmax d) ->
  scope_contract c' nodes (upper_vmin d) (full_vmax d) ->
  scope_contract c' nodes (full_vmin d) (lower_vmax d) ->
  exists up lo full wu wl wf,
    generate_atoms (Bool_ true) (lit 0) w = (Ok up, wu) /\
    generate_atoms (Bool_ false) (lit 0) w = (Ok lo, wl) /\
    generate_atoms None_ (lit 0) w = (Ok full, wf) /\
    (forall a, In a full <-> In a up \/ In a lo) /\
    (forall a, ~ (In a up /\ In a lo)).
Proof.
  intros Hc d nodes c' Hcut Hfull Hup Hlo.
  assert (Hz : truthy (lit 0 : F) = false).
  { unfold truthy. now rewrite feqb_zero. }
  exists (fill c' nodes (upper_vmin d) (full_vmax d)),
         (fill c' nodes (full_vmin d) (lower_vmax d)),
         (fill c' nodes (full_vmin d) (full_vmax d)).
  do 3 eexists.
  split; [apply (generate_atoms_spec _ _ w c _ _ Hc);
          now rewrite (get_box_to_fill_True _ _ _ Hz)|].
  split; [apply (generate_atoms_spec _ _ w c _ _ Hc);
          now rewrite (get_box_to_fill_False _ _ _ Hz)|].
  split; [apply (generate_atoms_spec _ _ w c _ _ Hc);
          now rewrite get_box_to_fill_None|].
  split.
  - intros a.
    rewrite (in_fill_contract _ _ _ _ a Hfull),
            (in_fill_contract _ _ _ _ a Hup),
            (in_fill_contract _ _ _ _ a Hlo).
    split.
    + intros (np & atom & Hnp & Hatom & Ha & Hb).
      apply (half_open_cut _ _ eps _ Hcut) in Hb. destruct Hb as [Hb|Hb];
        [left|right]; exists np, atom; auto.
    + intros [(np & atom & Hnp & Hatom & Ha & Hb)
             |(np & atom & Hnp & Hatom & Ha & Hb)];
        exists np, atom;
        (split; [exact Hnp|]; split; [exact Hatom|]; split; [exact Ha|]);
        apply (half_open_cut _ _ eps _ Hcut); auto.
  - intros a [Hu Hl].
    apply in_fill in Hu. destruct Hu as (_ & _ & _ & _ & _ & Hu).
    apply in_fill in Hl. destruct Hl as (_ & _ & _ & _ & _ & Hl).
    exact (half_open_cut_disjoint _ _ eps _ Hu Hl).
Qed.

End Bicrystal.

Section RationalBoxes.

Lemma half_open_Q (vmin vmax p : vec Q) :
  half_open vmin vmax p = true <->
  ((v0 vmin < v0 p)%Q /\ (v0 p <= v0 vmax)%Q) /\
  ((v1 vmin < v1 p)%Q /\ (v1 p <= v1 vmax)%Q) /\
  ((v2 vmin < v2 p)%Q /\ (v2 p <= v2 vmax)%Q).
Proof.
  unfold half_open. cbn [forallb].
  rewrite !andb_true_iff, !fltb_Q, !fleb_Q. tauto.
Qed.

(** In exact arithmetic every box is cut by the interface plane, in one
    of the first two ways. *)
Lemma cut_by_Q (d : vec Q) :
  cut_by (v2 (full_vmin d)) eps (v2 (full_vmax d)) = true.
Proof.
  unfold cut_by, full_vmin, full_vmax, eps.
  cbn [v2 fadd fdiv fneg lit Q_scalar].
  destruct (Qlt_le_dec (v2 d) 0) as [Hd|Hd].
  - apply orb_true_iff. left. apply orb_true_iff. right.
    apply andb_true_iff.
    split; apply fleb_Q; unfold Qdiv; change (/ 2)%Q with (1 # 2)%Q; lra.
  - apply orb_true_iff. left. apply orb_true_iff. left.
    apply andb_true_iff.
    split; apply fleb_Q; unfold Qdiv; change (/ 2)%Q with (1 # 2)%Q; lra.
Qed.

End RationalBoxes.

(** ** The reference model *)

Section ReferenceScope.
Context {F : Type} `{Scalar F}.

Lemma in_Zrange lo hi i :
  In i (Zrange (lo, hi)) <-> (lo <= i <= hi)%Z.
Proof.
  unfold Zrange. cbn [fst snd]. rewrite in_map_iff. split.
  - intros (k & <- & Hk). apply in_seq in Hk. lia.
  - intros Hi. exists (Z.to_nat (i - lo)). split; [lia|].
    apply in_seq. lia.
Qed.

(** The enumeration yields replicas of the nodes only, and every replica
    whose offsets are within the three ranges. *)
Lemma ref_get_all_nodes_spec (sc : RefScope) (nodes : list (latt.Node F))
  (np : latt.Node F * vec F) :
  In np (ref_get_all_nodes sc nodes) <->
  exists i j k : Z,
    (fst (a_range sc) <= i <= snd (a_range sc))%Z /\
    (fst (b_range sc) <= j <= snd (b_range sc))%Z /\
    (fst (c_range sc) <= k <= snd (c_range sc))%Z /\
    In (fst np) nodes /\
    snd np = vadd (latt.pos_in_cell (fst np))
                  (V3 (lit (i # 1)) (lit (j # 1)) (lit (k # 1))).
Proof.
  unfold ref_get_all_nodes.
  destruct (a_range sc) as [alo ahi], (b_range sc) as [blo bhi],
           (c_range sc) as [clo chi]. cbn [fst snd].
  rewrite in_flat_map. split.
  - intros (i & Hi & Hr). apply in_flat_map in Hr.
    destruct Hr as (j & Hj & Hr). apply in_flat_map in Hr.
    destruct Hr as (k & Hk & Hr). apply in_map_iff in Hr.
    destruct Hr as (node & <- & Hn).
    apply in_Zrange in Hi, Hj, Hk. exists i, j, k. cbn [fst snd]. auto.
  - intros (i & j & k & Hi & Hj & Hk & Hn & Hp).
    exists i. split; [now apply in_Zrange|].
    apply in_flat_map. exists j. split; [now apply in_Zrange|].
    apply in_flat_map. exists k. split; [now apply in_Zrange|].
    apply in_map_iff. exists (fst np). split; [|exact Hn].
    rewrite <- Hp. now destruct np.
Qed.

Lemma ref_scope_sound (c : @UnitCell F ref_collab) nodes vmin vmax np :
  In np (get_all_nodes (compute_scope c nodes (box_vertices vmin vmax))
                       nodes) ->
  is_replica nodes np.
Proof.
  cbn [get_all_nodes compute_scope ref_collab].
  rewrite ref_get_all_nodes_spec.
  intros (i & j & k & _ & _ & _ & Hn & Hp). split; eauto.
Qed.

End ReferenceScope.

(** ** Runs on the reference model *)

(** The literal [0.001] of the float instance is the binary64 value that
    Python reads for it. *)
Example float_eps :
  PrimFloat.eqb (@eps float _) 0x1.0624dd2f1a9fcp-10%float = true.
Proof. reflexivity. Qed.

(** The polonium objects are what the factory builds in an empty store. *)
Example po_from_factory :
  make_simple_cubic_lattice (F:=Q) "Po" (lit 3.35) ∅
  = (Ok po_lattice, po_store).
Proof. reflexivity. Qed.

(** C4.  [make_nacl_lattice(("Na","Cl"), a=5.64)] filled into a box of
    one unit cell, [(5.64, 5.64, 5.64)], by a fresh builder without
    rotation: the call returns a list of 8 atoms, 4 of species Na and 4 of
    species Cl.  Computed on the reference model of the collaborators, in
    binary64 and in exact arithmetic. *)
Theorem nacl_one_cell :
  (exists l,
     fill_fresh (F:=float) (make_nacl_lattice ["Na"; "Cl"] (lit 5.64))
                (V3 (lit 5.64) (lit 5.64) (lit 5.64)) None_ (lit 0) = Ok l /\
     count_species "Na" l = 4%nat /\ count_species "Cl" l = 4%nat /\
     List.length l = 8%nat) /\
  (exists l,
     fill_fresh (F:=Q) (make_nacl_lattice ["Na"; "Cl"] (lit 5.64))
                (V3 (lit 5.64) (lit 5.64) (lit 5.64)) None_ (lit 0) = Ok l /\
     count_species "Na" l = 4%nat /\ count_species "Cl" l = 4%nat /\
     List.length l = 8%nat).
Proof.
  split; eexists; (split; [vm_compute; reflexivity|]);
    repeat split; vm_compute; reflexivity.
Qed.

(** The same box with [upper=1]: the call returns the 8 atoms of the full
    box. *)
Example nacl_upper_one :
  exists l,
    fill_fresh (F:=float) (make_nacl_lattice ["Na"; "Cl"] (lit 5.64))
               (V3 (lit 5.64) (lit 5.64) (lit 5.64)) (Int_ 1) (lit 0) = Ok l /\
    List.length l = 8%nat.
Proof.
  eexists. split; [vm_compute; reflexivity|]. reflexivity.
Qed.

(** [mono] on the polonium lattice returns a builder with 27 atoms (three
    cells along each axis) whose unit cell is not the one of the lattice,
    and the cell of the lattice is still the one the factory built. *)
Example mono_po :
  let out := mono po_lattice 1%Q 1%Q 1%Q po_store in
  match fst out with
  | Ok config =>
      negb (Pos.eqb (unit_cell config) (latt.unit_cell po_lattice)) &&
      (List.length (atoms config) =? 27)%nat
  | Raise _ => false
  end = true /\
  snd out !! latt.unit_cell po_lattice = Some po_cell.
Proof. split; vm_compute; reflexivity. Qed.

Lemma do_gen_atoms_half_open_witness :
  let w := po_world None in
  cells w !! unit_cell (self w) = Some po_cell /\
  exists w',
    _do_gen_atoms (full_vmin po_dim) (full_vmax po_dim) w = (Ok tt, w') /\
    cells w' = cells w /\
    List.length (atoms (self w')) = 8%nat.
Proof.
  intros w. split; [reflexivity|].
  destruct (do_gen_atoms_half_open (full_vmin po_dim) (full_vmax po_dim)
              po_cell w eq_refl)
    as (w' & Hrun & Hcells & appended & Hatoms & Happ & _).
  exists w'. split; [exact Hrun|]. split; [exact Hcells|].
  rewrite Hatoms, Happ. vm_compute. reflexivity.
Defined.

(** The contract of the enumeration on the polonium builder. *)
Lemma po_scope_contract vmin vmax :
  (forall i j k : Z,
     half_open vmin vmax
       (V3 (inject_Z i * 3.35) (inject_Z j * 3.35) (inject_Z k * 3.35))%Q
     = true ->
     let sc := ref_compute_scope po_cell [po_node] (box_vertices vmin vmax) in
     (fst (a_range sc) <= i <= snd (a_range sc))%Z /\
     (fst (b_range sc) <= j <= snd (b_range sc))%Z /\
     (fst (c_range sc) <= k <= snd (c_range sc))%Z) ->
  scope_contract po_cell [po_node] vmin vmax.
Proof.
  intros Hrange. split; [intros np; apply ref_scope_sound|].
  intros [node p] atom [Hn (i & j & k & Hp)] Hatom Hb.
  cbn [fst snd] in *.
  destruct Hn as [<-|[]].
  destruct Hatom as [<-|[]].
  cbn [get_all_nodes compute_scope ref_collab].
  apply ref_get_all_nodes_spec. exists i, j, k. cbn [fst snd].
  assert (Hb' : half_open vmin vmax
    (V3 (inject_Z i * 3.35) (inject_Z j * 3.35) (inject_Z k * 3.35))%Q
    = true).
  { subst p. apply half_open_Q in Hb. apply half_open_Q.
    cbn in Hb. cbn.
    change (i # 1) with (inject_Z i) in Hb.
    change (j # 1) with (inject_Z j) in Hb.
    change (k # 1) with (inject_Z k) in Hb.
    destruct Hb as ([Ha Hb] & [Hc Hd] & [He Hf]).
    repeat split; lra. }
  destruct (Hrange i j k Hb') as (Hi & Hj & Hk).
  split; [exact Hi|]. split; [exact Hj|]. split; [exact Hk|].
  split; [left; reflexivity | exact Hp].
Qed.

Lemma cells_between (lo hi : Q) (n m i : Z) :
  (lo < inject_Z i * 3.35)%Q -> (inject_Z i * 3.35 <= hi)%Q ->
  (inject_Z n * 3.35 <= lo)%Q -> (hi < inject_Z m * 3.35)%Q ->
  (n < i < m)%Z.
Proof.
  intros H1 H2 H3 H4.
  assert (inject_Z n < inject_Z i)%Q by lra.
  assert (inject_Z i < inject_Z m)%Q by lra.
  rewrite <- !Zlt_Qlt in *. lia.
Qed.

Ltac between n m i Hlo Hhi :=
  apply (cells_between _ _ n m i Hlo Hhi); vm_compute; easy.

Lemma po_contract_full :
  scope_contract po_cell [po_node] (full_vmin po_dim) (full_vmax po_dim).
Proof.
  apply po_scope_contract. intros i j k Hb.
  apply half_open_Q in Hb.
  vm_compute ref_compute_scope. cbn [a_range b_range c_range fst snd].
  destruct Hb as ([Ha Hb] & [Hc Hd] & [He Hf]).
  assert (Hi : (-1 < i < 2)%Z) by between (-1)%Z 2%Z i Ha Hb.
  assert (Hj : (-1 < j < 2)%Z) by between (-1)%Z 2%Z j Hc Hd.
  assert (Hk : (-1 < k < 2)%Z) by between (-1)%Z 2%Z k He Hf.
  lia.
Qed.

Lemma po_contract_upper :
  scope_contract po_cell [po_node] (upper_vmin po_dim) (full_vmax po_dim).
Proof.
  apply po_scope_contract. intros i j k Hb.
  apply half_open_Q in Hb.
  vm_compute ref_compute_scope. cbn [a_range b_range c_range fst snd].
  destruct Hb as ([Ha Hb] & [Hc Hd] & [He Hf]).
  assert (Hi : (-1 < i < 2)%Z) by between (-1)%Z 2%Z i Ha Hb.
  assert (Hj : (-1 < j < 2)%Z) by between (-1)%Z 2%Z j Hc Hd.
  assert (Hk : (0 < k < 2)%Z) by between 0%Z 2%Z k He Hf.
  lia.
Qed.

Lemma po_contract_lower :
  scope_contract po_cell [po_node] (full_vmin po_dim) (lower_vmax po_dim).
Proof.
  apply po_scope_contract. intros i j k Hb.
  apply half_open_Q in Hb.
  vm_compute ref_compute_scope. cbn [a_range b_range c_range fst snd].
  destruct Hb as ([Ha Hb] & [Hc Hd] & [He Hf]).
  assert (Hi : (-1 < i < 2)%Z) by between (-1)%Z 2%Z i Ha Hb.
  assert (Hj : (-1 < j < 2)%Z) by between (-1)%Z 2%Z j Hc Hd.
  assert (Hk : (-1 < k < 1)%Z) by between (-1)%Z 1%Z k He Hf.
  lia.
Qed.

Lemma half_boxes_complement_witness :
  let w := po_world None in
  cells w !! unit_cell (self w) = Some po_cell /\
  cut_by (v2 (full_vmin po_dim)) eps (v2 (full_vmax po_dim)) = true /\
  scope_contract po_cell [po_node] (full_vmin po_dim) (full_vmax po_dim) /\
  scope_contract po_cell [po_node] (upper_vmin po_dim) (full_vmax po_dim) /\
  scope_contract po_cell [po_node] (full_vmin po_dim) (lower_vmax po_dim) /\
  exists up lo full wu wl wf,
    generate_atoms (Bool_ true) (lit 0) w = (Ok up, wu) /\
    generate_atoms (Bool_ false) (lit 0) w = (Ok lo, wl) /\
    generate_atoms None_ (lit 0) w = (Ok full, wf) /\
    (forall a, In a full <-> In a up \/ In a lo) /\
    (forall a, ~ (In a up /\ In a lo)).
Proof.
  split; [reflexivity|].
  split; [reflexivity|].
  split; [exact po_contract_full|].
  split; [exact po_contract_upper|].
  split; [exact po_contract_lower|].
  exact (half_boxes_complement (po_world None) po_cell eq_refl eq_refl
           po_contract_full po_contract_upper po_contract_lower).
Defined.

Lemma generate_atoms_rotation_compounds_witness :
  po_store !! latt.unit_cell po_lattice = Some po_cell /\
  py_in (@None_ Q) recognized = true /\
  (exists w1,
     generate_n 1 None_ (lit 0) (po_world (Some quarter_turn)) = (Ok tt, w1) /\
     cells w1 !! latt.unit_cell po_lattice
       = Some (rotate po_cell quarter_turn) /\
     exists vmin vmax w',
       generate_atoms None_ (lit 0) w1 =
         (Ok (fill (rotate (rotate po_cell quarter_turn) quarter_turn)
                   (latt.nodes po_lattice) vmin vmax), w') /\
       cells w' !! latt.unit_cell po_lattice
         = Some (rotate (rotate po_cell quarter_turn) quarter_turn)) /\
  M_1 (rotate po_cell quarter_turn)
    <> M_1 (rotate (rotate po_cell quarter_turn) quarter_turn).
Proof.
  split; [reflexivity|]. split; [reflexivity|]. split.
  - exact (generate_atoms_rotation_compounds po_lattice po_dim quarter_turn
             None po_store po_cell None_ (lit 0) 1 eq_refl eq_refl).
  - intros E. vm_compute in E. discriminate E.
Defined.

Lemma get_named_lattice_unknown_witness :
  endswith "Unobtainium" ".cif" = false /\
  in_catalog (lower "Unobtainium") = false /\
  get_named_lattice (F:=Q) "Unobtainium" ∅ =
    (Raise (ValueError ("Unknown lattice: " ++ lower "Unobtainium")), ∅) /\
  str_in (lower "Unobtainium") ("Unknown lattice: " ++ lower "Unobtainium")
    = true.
Proof.
  split; [reflexivity|]. split; [reflexivity|].
  exact (get_named_lattice_unknown (F:=Q) "Unobtainium" ∅ eq_refl eq_refl).
Defined.

(** C7 as stated fails at the name [Unobtainium]: it does not end in
    [.cif], its lowercased form is not in the catalog, and the message of
    the error does not contain it (it contains [unobtainium]). *)
Lemma get_named_lattice_unknown_counterexample :
  endswith "Unobtainium" ".cif" = false /\
  in_catalog (lower "Unobtainium") = false /\
  get_named_lattice (F:=Q) "Unobtainium" ∅ =
    (Raise (ValueError "Unknown lattice: unobtainium"), ∅) /\
  str_in "Unobtainium" "Unknown lattice: unobtainium" = false.
Proof. repeat split. Qed.

Lemma get_named_lattice_lower_witness :
  endswith (lower "NaCl") ".cif" = false /\
  get_named_lattice (F:=Q) "NaCl" ∅ = get_named_lattice (lower "NaCl") ∅.
Proof.
  split; [reflexivity|].
  exact (get_named_lattice_lower (F:=Q) "NaCl" ∅ eq_refl).
Defined.

(** C9 as stated fails at the name [x.CIF]: it does not end in [.cif], so
    it is looked up in the catalog and refused as unknown; its lowercased
    form [x.cif] does, so it is handed to the CIF reader (here: gemmi is
    not installed and the run exits). *)
Lemma get_named_lattice_lower_counterexample :
  endswith "x.CIF" ".cif" = false /\
  get_named_lattice (F:=Q) "x.CIF" ∅ =
    (Raise (ValueError "Unknown lattice: x.cif"), ∅) /\
  get_named_lattice (F:=Q) (lower "x.CIF") ∅ =
    (Raise (SystemExit gemmi_needed), ∅) /\
  get_named_lattice (F:=Q) "x.CIF" ∅ <>
    get_named_lattice (F:=Q) (lower "x.CIF") ∅.
Proof.
  split; [reflexivity|]. split; [reflexivity|]. split; [reflexivity|].
  intros E. vm_compute in E. discriminate E.
Qed.

(* ===================================================================== *)
(** * Further properties of the code                                      *)
(* ===================================================================== *)

(** ** The factories *)

Section Factories.
Context {F : Type} `{Scalar F} `{Collab F}.

Lemma construct_spec (r : result UnitCell) (s : store) :
  construct r s =
  match r with
  | Ok c => (Ok (fresh (dom s)), <[fresh (dom s) := c]> s)
  | Raise e => (Raise e, s)
  end.
Proof. unfold construct, bind, lift_result. now destruct r. Qed.

(** X1.  A factory of a two-species structure called with a number of
    symbols other than two stops at its assertion: it raises
    [AssertionError] before the unit cell is constructed, and the store is
    as it was.  This holds for the zinc blende (both variants), SiC
    polytype, NbO, CrNb, NaCl, NiTi and TiAl factories. *)
Theorem binary_factories_check_arity (symbols : list string)
  (a b c h : F) (polytype : string) (s : store) :
  length symbols <> 2%nat ->
  make_zincblende_lattice symbols a s = (Raise AssertionError, s) /\
  make_zincblende2_lattice symbols a s = (Raise AssertionError, s) /\
  make_sic_polytype_lattice symbols a h polytype s
    = (Raise AssertionError, s) /\
  make_nbo_lattice symbols a s = (Raise AssertionError, s) /\
  make_crnb_lattice symbols a s = (Raise AssertionError, s) /\
  make_nacl_lattice symbols a s = (Raise AssertionError, s) /\
  make_niti_lattice symbols a s = (Raise AssertionError, s) /\
  make_tial_lattice symbols a b c s = (Raise AssertionError, s).
Proof.
  intros Hn. apply Nat.eqb_neq in Hn.
  unfold make_zincblende_lattice, make_zincblende2_lattice,
    make_sic_polytype_lattice, make_nbo_lattice, make_crnb_lattice,
    make_nacl_lattice, make_niti_lattice, make_tial_lattice.
  unfold bind, assert. rewrite Hn. unfold raise. repeat split.
Qed.

(** X2.  The kesterite and stannite factories called with a number of
    symbols other than four raise [AssertionError] before the unit cell is
    constructed; the store is as it was. *)
Theorem quaternary_factories_check_arity (symbols : list string)
  (a b c : F) (s : store) :
  length symbols <> 4%nat ->
  make_kesterite_structure symbols a b c s = (Raise AssertionError, s) /\
  make_stannite_structure symbols a b c s = (Raise AssertionError, s).
Proof.
  intros Hn. apply Nat.eqb_neq in Hn.
  unfold make_kesterite_structure, make_stannite_structure.
  unfold bind, assert. rewrite Hn. unfold raise. split; reflexivity.
Qed.

(** The hexagonal factories, step by step. *)
Lemma make_hexagonal_spec symbol a h polytype (s : store) :
  make_mg_hexagonal_lattice symbol a h polytype s =
  match graingen_generate_polytype a h polytype with
  | Raise e => (Raise e, s)
  | Ok (c, nodes) =>
      let s' := <[fresh (dom s) := c]> s in
      match symbol with
      | EmptyString => (Raise IndexError, s')
      | String ch rest =>
          match len polytype with
          | O => (Raise ZeroDivisionError, s')
          | n =>
              let sym := char0 ch rest in
              (Ok (make_lattice (fresh (dom s)) nodes
                     [(sym, lit 0, lit 0, lit 0);
                      (sym, lit 0, lit 0,
                       (lit 0.75 / lit (Z.of_nat n # 1))%F)]),
               s')
          end
      end
  end /\
  make_c_hexagonal_lattice symbol a h polytype s =
  make_mg_hexagonal_lattice symbol a h polytype s.
Proof.
  split; [|reflexivity].
  unfold make_mg_hexagonal_lattice, bind, lift_result.
  destruct (graingen_generate_polytype a h polytype) as [[c nodes]|e];
    [|reflexivity].
  unfold ret at 1, new, first_char, div_len.
  destruct symbol as [|ch rest]; [reflexivity|].
  unfold ret at 1. unfold ret at 1.
  destruct (len polytype); reflexivity.
Qed.

Lemma make_sic_polytype_spec symbols a h polytype (s : store) :
  length symbols = 2%nat ->
  make_sic_polytype_lattice symbols a h polytype s =
  match latt_generate_polytype a h polytype with
  | Raise e => (Raise e, s)
  | Ok (c, nodes) =>
      let s' := <[fresh (dom s) := c]> s in
      match len polytype with
      | O => (Raise ZeroDivisionError, s')
      | n =>
          (Ok (make_lattice (fresh (dom s)) nodes
                 [(sym symbols 0, lit 0, lit 0, lit 0);
                  (sym symbols 1, lit 0, lit 0,
                   (lit 0.75 / lit (Z.of_nat n # 1))%F)]),
           s')
      end
  end.
Proof.
  intros Hn. apply Nat.eqb_eq in Hn.
  unfold make_sic_polytype_lattice, bind, assert, lift_result.
  rewrite Hn. unfold ret at 1.
  destruct (latt_generate_polytype a h polytype) as [[c nodes]|e];
    [|reflexivity].
  unfold ret at 1, new, div_len.
  destruct (len polytype); reflexivity.
Qed.

End Factories.

(** ** The polytype entries of the lookup *)

Section MoreStrings.

(** A string that starts with [sic:] is [sic:] followed by its tail. *)
Lemma starts_sic t :
  startswith t "sic:" = true -> t = ("sic:" ++ slice_from 4 t)%string.
Proof.
  unfold startswith.
  destruct t as [|c1 [|c2 [|c3 [|c4 rest]]]]; try discriminate;
    cbn [String.prefix].
  1-3: repeat match goal with
       | |- context [ascii_dec ?x ?y] => destruct (ascii_dec x y)
       end; discriminate.
  destruct (ascii_dec "s" c1) as [<-|]; [|discriminate].
  destruct (ascii_dec "i" c2) as [<-|]; [|discriminate].
  destruct (ascii_dec "c" c3) as [<-|]; [|discriminate].
  destruct (ascii_dec ":" c4) as [<-|]; [|discriminate].
  intros _. reflexivity.
Qed.

Lemma prefix_app a b : String.prefix a (a ++ b)%string = true.
Proof.
  induction a as [|c a IH]; [now destruct b|].
  simpl. destruct (ascii_dec c c); [exact IH | contradiction].
Qed.

End MoreStrings.

Section Polytypes.
Context {F : Type} `{Scalar F} `{Collab F} {U : Unicode} {UL : @UnicodeLaws U}.

(** A lowercased name of the form [sic:p] reaches the polytype factory
    with [p]. *)
Lemma get_named_lattice_sic name p (s : store) :
  lower name = ("sic:" ++ p)%string ->
  endswith name ".cif" = false ->
  get_named_lattice name s =
  make_sic_polytype_lattice ["Si"; "C"] (lit 3.073) (lit 2.52) p s.
Proof.
  intros Hl Hc. unfold get_named_lattice. rewrite Hc. cbv zeta. rewrite Hl.
  repeat match goal with
         | |- context [String.eqb ("sic:" ++ p)%string ?x] =>
             change (String.eqb ("sic:" ++ p)%string x) with false
         end.
  unfold startswith. rewrite prefix_app. reflexivity.
Qed.

(** X3.  For a name whose lowercased form starts with [sic:] (and that
    does not end in [.cif]), the lookup cuts the stacking sequence from the
    lowercased name, not from the name as given: the polytype factory is
    handed what follows the first four code points of [name.lower()], so
    [SiC:ABABC] asks for the sequence [ababc], never for [ABABC]. *)
Theorem sic_polytype_is_lowercased name (s : store) :
  startswith (lower name) "sic:" = true ->
  endswith name ".cif" = false ->
  get_named_lattice name s =
  make_sic_polytype_lattice ["Si"; "C"] (lit 3.073) (lit 2.52)
    (slice_from 4 (lower name)) s.
Proof.
  intros Hs Hc. apply get_named_lattice_sic; [|exact Hc].
  now apply starts_sic.
Qed.

(** X4.  An empty stacking sequence never yields a lattice: the three
    polytype factories raise on it for every other argument (the
    assertion, whatever the generator raises, an [IndexError] on an empty
    symbol, or else [ZeroDivisionError] from [0.75 / len(polytype)]), and
    so does the lookup of the name [sic:] in any capitalisation. *)
Theorem empty_polytype_never_builds :
  (forall symbols a h (s : store),
     exists e s', make_sic_polytype_lattice symbols a h EmptyString s = (Raise e, s')) /\
  (forall symbol a h (s : store),
     exists e s', make_c_hexagonal_lattice symbol a h EmptyString s = (Raise e, s')) /\
  (forall symbol a h (s : store),
     exists e s', make_mg_hexagonal_lattice symbol a h EmptyString s = (Raise e, s')) /\
  (forall name (s : store),
     lower name = "sic:" ->
     exists e s', get_named_lattice name s = (Raise e, s')) /\
  (forall a h (s : store) c nodes,
     latt_generate_polytype a h EmptyString = Ok (c, nodes) ->
     make_sic_polytype_lattice ["Si"; "C"] a h EmptyString s =
       (Raise ZeroDivisionError, <[fresh (dom s) := c]> s)).
Proof.
  assert (Hsic : forall symbols a h (s : store),
    exists e s', make_sic_polytype_lattice symbols a h EmptyString s = (Raise e, s')).
  { intros symbols a h s.
    destruct (Nat.eq_dec (length symbols) 2) as [E|E].
    - rewrite (make_sic_polytype_spec symbols a h EmptyString s E).
      destruct (latt_generate_polytype a h EmptyString) as [[c nodes]|e];
        cbn [len]; eauto.
    - apply Nat.eqb_neq in E.
      unfold make_sic_polytype_lattice, bind, assert. rewrite E.
      unfold raise. eauto. }
  assert (Hhex : forall symbol a h (s : store),
    exists e s', make_mg_hexagonal_lattice symbol a h EmptyString s = (Raise e, s')).
  { intros symbol a h s.
    rewrite (proj1 (make_hexagonal_spec symbol a h EmptyString s)).
    destruct (graingen_generate_polytype a h EmptyString) as [[c nodes]|e];
      [|eauto].
    destruct symbol; cbn [len]; eauto. }
  split; [exact Hsic|]. split; [exact Hhex|]. split; [exact Hhex|]. split.
  - intros name s Hl.
    assert (Hc : endswith name ".cif" = false).
    { destruct (endswith name ".cif") eqn:E; [|reflexivity].
      apply endswith_cif_lower in E. rewrite Hl in E. discriminate E. }
    rewrite (get_named_lattice_sic name EmptyString s Hl Hc). apply Hsic.
  - intros a h s c nodes E.
    rewrite (make_sic_polytype_spec ["Si"; "C"] a h EmptyString s eq_refl), E.
    reflexivity.
Qed.

(** X5.  The two hexagonal factories name every atom by the first
    character of [symbol], not by [symbol]: when one of them returns a
    lattice, [symbol] is not empty and each atom of each node carries its
    first character (the code point at its start) as species.  The lookup
    of [mg] passes the symbol [Mg], so the atoms of that lattice are of
    species [M]. *)
Theorem hexagonal_species_is_first_char :
  (forall symbol a h polytype (s s' : store) lat,
     make_mg_hexagonal_lattice symbol a h polytype s = (Ok lat, s') ->
     make_c_hexagonal_lattice symbol a h polytype s = (Ok lat, s') /\
     exists ch rest,
       symbol = String ch rest /\
       forall node atom,
         In node (latt.nodes lat) ->
         In atom (latt.atoms_in_node node) ->
         latt.name atom = char0 ch rest) /\
  (forall name (s s' : store) lat,
     lower name = "mg" ->
     get_named_lattice name s = (Ok lat, s') ->
     forall node atom,
       In node (latt.nodes lat) ->
       In atom (latt.atoms_in_node node) ->
       latt.name atom = "M").
Proof.
  assert (Hfac : forall symbol a h polytype (s s' : store) lat,
     make_mg_hexagonal_lattice symbol a h polytype s = (Ok lat, s') ->
     exists ch rest,
       symbol = String ch rest /\
       forall node atom,
         In node (latt.nodes lat) ->
         In atom (latt.atoms_in_node node) ->
         latt.name atom = char0 ch rest).
  { intros symbol a h polytype s s' lat E.
    rewrite (proj1 (make_hexagonal_spec symbol a h polytype s)) in E.
    destruct (graingen_generate_polytype a h polytype) as [[c nodes]|e];
      [|discriminate].
    destruct symbol as [|ch rest]; [discriminate|].
    destruct (len polytype) as [|n]; [discriminate|].
    cbv zeta in E. injection E as <- _.
    exists ch, rest. split; [reflexivity|].
    intros node atom Hn Ha. unfold make_lattice in Hn.
    cbn [latt.nodes] in Hn. apply in_map_iff in Hn.
    destruct Hn as (p & <- & _).
    cbn [latt_Node latt.atoms_in_node map AtomInNode_of_tuple] in Ha.
    destruct Ha as [<-|[<-|[]]]; reflexivity. }
  split.
  - intros symbol a h polytype s s' lat E.
    split; [|now apply (Hfac _ _ _ _ _ _ _ E)].
    now rewrite (proj2 (make_hexagonal_spec symbol a h polytype s)).
  - intros name s s' lat Hl E.
    assert (Hc : endswith name ".cif" = false).
    { destruct (endswith name ".cif") eqn:Ec; [|reflexivity].
      apply endswith_cif_lower in Ec. rewrite Hl in Ec. discriminate Ec. }
    unfold get_named_lattice in E. rewrite Hc in E. cbv zeta in E.
    rewrite Hl in E.
    repeat match type of E with
           | context [String.eqb "mg" ?x] =>
               let b := eval vm_compute in (String.eqb "mg" x) in
               change (String.eqb "mg" x) with b in E
           end.
    cbv iota in E.
    destruct (Hfac _ _ _ _ _ _ _ E) as (ch & rest & [= <- <-] & Hall).
    exact Hall.
Qed.

End Polytypes.

(** ** Lattices from the lookup are separate objects *)

Section Allocation.
Context {F : Type} `{Scalar F} `{Collab F} {U : Unicode}.

Lemma insert_fresh_frame (s : store) c l :
  is_Some (s !! l) -> <[fresh (dom s) := c]> s !! l = s !! l.
Proof.
  intros Hl. apply lookup_insert_ne. intros <-.
  rewrite fresh_unused in Hl. now destruct Hl.
Qed.

Ltac new_cell_end :=
  cbn [fst snd latt.unit_cell make_lattice];
  split;
  [ let l := fresh "l" in
    let Hl := fresh "Hl" in
    intros l Hl; first [reflexivity | now apply insert_fresh_frame]
  | first [ exact I
          | split; [apply fresh_unused
                   | rewrite lookup_insert_eq; eexists; reflexivity] ] ].

Ltac new_cell :=
  intros s;
  unfold bind, assert, construct, lift_result, new, first_char, div_len,
    bind, ret, raise;
  cbv beta iota zeta; cbn [fst snd];
  repeat match goal with
         | |- context [match ?x with _ => _ end] =>
             lazymatch type of x with
             | bool => destruct x
             | nat => destruct x
             | string => destruct x
             | result (_ * _) => destruct x as [[? ?]|?]
             | result _ => destruct x
             end;
             cbv beta iota zeta; cbn [fst snd]
         end;
  new_cell_end.

Lemma make_simple_cubic_lattice_new symbol a :
  builds_new_cell (make_simple_cubic_lattice symbol a).
Proof. unfold make_simple_cubic_lattice. new_cell. Qed.

Lemma make_fcc_lattice_new symbol a :
  builds_new_cell (make_fcc_lattice symbol a).
Proof. unfold make_fcc_lattice. new_cell. Qed.

Lemma make_bcc_lattice_new symbol a :
  builds_new_cell (make_bcc_lattice symbol a).
Proof. unfold make_bcc_lattice. new_cell. Qed.

Lemma make_hcp_lattice_new symbol a c :
  builds_new_cell (make_hcp_lattice symbol a c).
Proof. unfold make_hcp_lattice. new_cell. Qed.

Lemma make_zincblende_lattice_new symbols a :
  builds_new_cell (make_zincblende_lattice symbols a).
Proof. unfold make_zincblende_lattice. new_cell. Qed.

Lemma make_zincblende2_lattice_new symbols a :
  builds_new_cell (make_zincblende2_lattice symbols a).
Proof. unfold make_zincblende2_lattice. new_cell. Qed.

Lemma make_kesterite_structure_new symbols a b c :
  builds_new_cell (make_kesterite_structure symbols a b c).
Proof. unfold make_kesterite_structure. new_cell. Qed.

Lemma make_stannite_structure_new symbols a b c :
  builds_new_cell (make_stannite_structure symbols a b c).
Proof. unfold make_stannite_structure. new_cell. Qed.

Lemma make_sic_polytype_lattice_new symbols a h polytype :
  builds_new_cell (make_sic_polytype_lattice symbols a h polytype).
Proof. unfold make_sic_polytype_lattice. new_cell. Qed.

Lemma make_c_hexagonal_lattice_new symbol a h polytype :
  builds_new_cell (make_c_hexagonal_lattice symbol a h polytype).
Proof. unfold make_c_hexagonal_lattice. new_cell. Qed.

Lemma make_mg_hexagonal_lattice_new symbol a h polytype :
  builds_new_cell (make_mg_hexagonal_lattice symbol a h polytype).
Proof. unfold make_mg_hexagonal_lattice. new_cell. Qed.

Lemma make_diamond_lattice_new symbol a :
  builds_new_cell (make_diamond_lattice symbol a).
Proof. unfold make_diamond_lattice. new_cell. Qed.

Lemma make_nbo_lattice_new symbols a :
  builds_new_cell (make_nbo_lattice symbols a).
Proof. unfold make_nbo_lattice. new_cell. Qed.

Lemma make_crnb_lattice_new symbols a :
  builds_new_cell (make_crnb_lattice symbols a).
Proof. unfold make_crnb_lattice. new_cell. Qed.

Lemma make_nacl_lattice_new symbols a :
  builds_new_cell (make_nacl_lattice symbols a).
Proof. unfold make_nacl_lattice. new_cell. Qed.

Lemma make_niti_lattice_new symbols a :
  builds_new_cell (make_niti_lattice symbols a).
Proof. unfold make_niti_lattice. new_cell. Qed.

Lemma make_tial_lattice_new symbols a b c :
  builds_new_cell (make_tial_lattice symbols a b c).
Proof. unfold make_tial_lattice. new_cell. Qed.

Lemma make_bct_lattice_new symbol a c :
  builds_new_cell (make_bct_lattice symbol a c).
Proof. unfold make_bct_lattice. new_cell. Qed.

Lemma make_lattice_from_cif_new filename :
  builds_new_cell (make_lattice_from_cif filename).
Proof. unfold make_lattice_from_cif. new_cell. Qed.

Lemma raise_new e : builds_new_cell (raise e).
Proof. intros s. unfold raise. cbn [fst snd]. split; [reflexivity|exact I]. Qed.

Lemma get_named_lattice_new name : builds_new_cell (get_named_lattice name).
Proof.
  unfold get_named_lattice.
  repeat match goal with
         | |- builds_new_cell (if ?b then _ else _) => destruct b
         | |- builds_new_cell (let x := _ in _) => cbv zeta
         end;
    first [ apply make_simple_cubic_lattice_new
          | apply make_fcc_lattice_new
          | apply make_bcc_lattice_new
          | apply make_hcp_lattice_new
          | apply make_zincblende_lattice_new
          | apply make_zincblende2_lattice_new
          | apply make_kesterite_structure_new
          | apply make_stannite_structure_new
          | apply make_sic_polytype_lattice_new
          | apply make_c_hexagonal_lattice_new
          | apply make_mg_hexagonal_lattice_new
          | apply make_diamond_lattice_new
          | apply make_nbo_lattice_new
          | apply make_crnb_lattice_new
          | apply make_nacl_lattice_new
          | apply make_niti_lattice_new
          | apply make_tial_lattice_new
          | apply make_bct_lattice_new
          | apply make_lattice_from_cif_new
          | apply raise_new ].
Qed.

(** X6.  Lattices that come from separate lookups never share a unit
    cell: the cell of the second lattice is another object than the cell of
    the first, the second lookup leaves the cell of the first lattice (and
    every cell the store held before) as it was, whatever the two names
    are.  Rotating one lattice therefore cannot reach the other. *)
Theorem lookups_share_no_cell name1 name2 (s s1 s2 : store) lat1 lat2 :
  get_named_lattice name1 s = (Ok lat1, s1) ->
  get_named_lattice name2 s1 = (Ok lat2, s2) ->
  latt.unit_cell lat1 <> latt.unit_cell lat2 /\
  is_Some (s1 !! latt.unit_cell lat1) /\
  s2 !! latt.unit_cell lat1 = s1 !! latt.unit_cell lat1 /\
  is_Some (s2 !! latt.unit_cell lat2) /\
  (forall l, is_Some (s !! l) -> s2 !! l = s !! l).
Proof.
  intros E1 E2.
  destruct (get_named_lattice_new name1 s) as [F1 N1].
  destruct (get_named_lattice_new name2 s1) as [F2 N2].
  rewrite E1 in F1, N1. rewrite E2 in F2, N2. cbn [fst snd] in *.
  destruct N1 as [N1 S1]. destruct N2 as [N2 S2].
  split; [|split; [exact S1|split; [now apply F2|split; [exact S2|]]]].
  - intros E. rewrite <- E in N2. rewrite N2 in S1. now destruct S1.
  - intros l Hl. rewrite F2; [now apply F1|].
    rewrite F1; assumption.
Qed.

End Allocation.

(** ** More on the builder and the driver *)

Section MoreBuilder.
Context {F : Type} `{Scalar F} `{Collab F}.

Lemma generated_again c vmin vmax w :
  rot_mat (self w) = None ->
  generated c vmin vmax (generated c vmin vmax w) = generated c vmin vmax w.
Proof.
  intros Hr. unfold generated, filled.
  cbn [self cells set_atoms set_scope set_min_max set_cells rot_mat
       unit_cell lattice atoms].
  rewrite Hr. cbn [oriented]. rewrite insert_insert_eq. reflexivity.
Qed.

(** X7.  Without a rotation matrix, [generate_atoms] can be repeated: a
    second call with the same arguments returns the same atoms as the first
    (the list is started anew, not appended to) and leaves the model and
    the store exactly as the first call left them.  The same holds when
    the first call stops at the assertion. *)
Theorem generate_atoms_repeatable upper z w c :
  cells w !! unit_cell (self w) = Some c ->
  rot_mat (self w) = None ->
  generate_atoms upper z (snd (generate_atoms upper z w))
  = generate_atoms upper z w.
Proof.
  intros Hc Hr.
  destruct (fst (get_box_to_fill (dim (self w)) upper z w))
    as [[vmin vmax]|e] eqn:Eb.
  - rewrite (generate_atoms_spec upper z w c vmin vmax Hc Eb). cbn [snd].
    set (w1 := generated c vmin vmax w).
    assert (Hc1 : cells w1 !! unit_cell (self w1) = Some c).
    { unfold w1, generated, filled.
      cbn [self cells set_atoms set_scope set_min_max set_cells unit_cell].
      rewrite Hr. cbn [oriented]. apply lookup_insert_eq. }
    assert (Eb1 : fst (get_box_to_fill (dim (self w1)) upper z w1)
                  = Ok (vmin, vmax)).
    { rewrite <- Eb. now apply get_box_to_fill_dim. }
    rewrite (generate_atoms_spec upper z w1 c vmin vmax Hc1 Eb1).
    unfold w1 at 3. rewrite (generated_again c vmin vmax w Hr).
    reflexivity.
  - rewrite (generate_atoms_raises upper z w e Eb). cbn [snd].
    rewrite (generate_atoms_raises upper z (set_atoms [] w) e);
      [reflexivity|].
    rewrite <- Eb. now apply get_box_to_fill_dim.
Qed.

(** X8.  The model [mono] returns is consistent with its own box: its
    dimensions are the rounded supercell multiples, its periodic box is
    [identity(3) * dim], it has no rotation, its title is the command
    line, and every atom it holds lies in the half-open box
    [(-dim/2 + 0.001, dim/2 + 0.001]] on each axis. *)
Theorem mono_atoms_in_box (lat : latt.CrystalLattice F) nx ny nz
  (s s' : store) config :
  mono lat nx ny nz s = (Ok config, s') ->
  exists c,
    s !! latt.unit_cell lat = Some c /\
    dim config = mono_dim c nx ny nz /\
    pbc config = mul_rows identity3 (dim config) /\
    rot_mat config = None /\
    title config = get_command_line /\
    forall a,
      In a (atoms config) ->
      half_open (full_vmin (dim config)) (full_vmax (dim config))
                (mdprim.pos a) = true.
Proof.
  intros E.
  destruct (s !! latt.unit_cell lat) as [c|] eqn:Ec.
  2: { rewrite (mono_dangling lat nx ny nz s Ec) in E. discriminate E. }
  rewrite (mono_spec lat nx ny nz s c Ec) in E. cbv zeta in E.
  injection E as <- _. exists c. split; [reflexivity|].
  unfold generated, filled.
  cbn [self set_atoms set_scope set_min_max set_cells dim pbc rot_mat title
       atoms RotatedMonocrystal lattice latt.nodes oriented app].
  repeat (split; [reflexivity|]).
  intros a Ha. unfold fill in Ha. apply List.filter_In in Ha. apply Ha.
Qed.

End MoreBuilder.

(** ** Half boxes with a margin *)

Section MarginBounds.
Context {F : Type} `{Scalar F} `{Collab F}.



End MarginBounds.

Section Margin.
Context {F : Type} `{Scalar F} {SO : ScalarOrder F} `{Collab F}.




End Margin.

(** ** What the factories build *)

Section Decorations.
Context {F : Type} `{Scalar F} `{Collab F} {U : Unicode}.

Lemma eqb_neq_false (x y : string) : x <> y -> String.eqb x y = false.
Proof. apply String.eqb_neq. Qed.

Lemma NoDup_four (s0 s1 s2 s3 : string) :
  List.NoDup [s0; s1; s2; s3] ->
  s0 <> s1 /\ s0 <> s2 /\ s0 <> s3 /\ s1 <> s2 /\ s1 <> s3 /\ s2 <> s3.
Proof.
  intros H1.
  apply List.NoDup_cons_iff in H1. destruct H1 as [N0 H1].
  apply List.NoDup_cons_iff in H1. destruct H1 as [N1 H1].
  apply List.NoDup_cons_iff in H1. destruct H1 as [N2 _].
  cbn [In] in N0, N1, N2.
  repeat split; intros E; subst; tauto.
Qed.

Lemma count_cons (f : string -> bool) x l :
  length (List.filter f (x :: l))
  = ((if f x then 1 else 0) + length (List.filter f l))%nat.
Proof. cbn [List.filter]. destruct (f x); reflexivity. Qed.

Lemma node_count_names s p (node_atoms : list (string * F * F * F)) :
  node_count s (latt_Node p node_atoms)
  = length (List.filter (fun n => String.eqb n s)
              (map (fun t => latt.name (AtomInNode_of_tuple t)) node_atoms)).
Proof.
  unfold node_count, latt_Node. cbn [latt.atoms_in_node].
  induction node_atoms as [|t l IH]; [reflexivity|].
  cbn [map List.filter].
  destruct (String.eqb (latt.name (AtomInNode_of_tuple t)) s);
    cbn [length]; rewrite IH; reflexivity.
Qed.

Ltac four_species Hnd :=
  destruct (NoDup_four _ _ _ _ Hnd) as (N01 & N02 & N03 & N12 & N13 & N23);
  rewrite !node_count_names;
  cbn [map AtomInNode_of_tuple latt.name sym nth];
  rewrite !count_cons; cbv beta; cbn [List.filter length];
  rewrite !String.eqb_refl;
  repeat match goal with
         | |- context [String.eqb ?x ?y] =>
             rewrite (eqb_neq_false x y) by congruence
         end;
  repeat split.

(** X10.  The decoration of the two quaternary structures has the same
    stoichiometry: when the factory is given four distinct symbols and
    returns, the lattice has one node per body-centred position and every
    node carries 16 atoms, 4 of the first species, 2 of the second, 2 of
    the third and 8 of the fourth. *)
Theorem quaternary_stoichiometry s0 s1 s2 s3 a b c (s s' : store) lat :
  List.NoDup [s0; s1; s2; s3] ->
  make_kesterite_structure [s0; s1; s2; s3] a b c s = (Ok lat, s') \/
  make_stannite_structure [s0; s1; s2; s3] a b c s = (Ok lat, s') ->
  length (latt.nodes lat) = length bcc_nodes /\
  forall node,
    In node (latt.nodes lat) ->
    length (latt.atoms_in_node node) = 16%nat /\
    node_count s0 node = 4%nat /\
    node_count s1 node = 2%nat /\
    node_count s2 node = 2%nat /\
    node_count s3 node = 8%nat.
Proof.
  intros Hnd [E|E].
  - unfold make_kesterite_structure in E. unfold bind at 1 in E.
    cbn [length Nat.eqb assert] in E. unfold ret at 1 in E.
    unfold bind at 1 in E. rewrite construct_spec in E.
    destruct (OrthorhombicUnitCell a b c) as [cell|e]; [|discriminate].
    unfold ret in E. injection E as <- _.
    unfold make_lattice. cbn [latt.nodes].
    split; [apply length_map|].
    intros node Hn. apply in_map_iff in Hn. destruct Hn as (p & <- & _).
    split; [unfold latt_Node; cbn [latt.atoms_in_node]; apply length_map|].
    four_species Hnd.
  - unfold make_stannite_structure in E. unfold bind at 1 in E.
    cbn [length Nat.eqb assert] in E. unfold ret at 1 in E.
    unfold bind at 1 in E. rewrite construct_spec in E.
    destruct (OrthorhombicUnitCell a b c) as [cell|e]; [|discriminate].
    unfold ret in E. injection E as <- _.
    unfold make_lattice. cbn [latt.nodes].
    split; [apply length_map|].
    intros node Hn. apply in_map_iff in Hn. destruct Hn as (p & <- & _).
    split; [unfold latt_Node; cbn [latt.atoms_in_node]; apply length_map|].
    four_species Hnd.
Qed.

(** ** Lattices from CIF files *)

(** X11.  Without gemmi, every name that ends in [.cif] ends the run with
    [SystemExit] and the message that asks for gemmi; the catalog is not
    consulted, the file is not read, and the store is as it was. *)
Theorem cif_needs_gemmi name (s : store) :
  gemmi_installed = false ->
  endswith name ".cif" = true ->
  get_named_lattice name s = (Raise (SystemExit gemmi_needed), s) /\
  str_in "pip install gemmi" gemmi_needed = true.
Proof.
  intros Hg Hc. split; [|reflexivity].
  unfold get_named_lattice. rewrite Hc.
  unfold make_lattice_from_cif. rewrite Hg. reflexivity.
Qed.

(** X12.  With gemmi, a file that is read and whose cell the unit cell
    constructor accepts gives a lattice with one node per site, in the
    order of the file: each node sits at the fractional position of its
    site and carries exactly one atom, of the site's species, at offset
    zero.  The unit cell is a new object.  What the reader raises is
    passed on and leaves the store as it was. *)
Theorem cif_lattice_structure filename (s : store) :
  gemmi_installed = true ->
  (forall st c,
     read_atomic_structure filename = Ok st ->
     new_UnitCell (cif_a st) (cif_b st) (cif_c st)
                  (cif_alpha st) (cif_beta st) (cif_gamma st) EmptyString
       = Ok c ->
     exists lat,
       make_lattice_from_cif filename s
         = (Ok lat, <[fresh (dom s) := c]> s) /\
       latt.unit_cell lat = fresh (dom s) /\
       map latt.pos_in_cell (latt.nodes lat) = map snd (cif_sites st) /\
       map latt.atoms_in_node (latt.nodes lat) =
         map (fun site =>
                [latt.mkAtomInNode (fst site) (V3 (lit 0) (lit 0) (lit 0))])
             (cif_sites st)) /\
  (forall e,
     read_atomic_structure filename = Raise e ->
     make_lattice_from_cif filename s = (Raise e, s)).
Proof.
  intros Hg. split.
  - intros st c Hr Hc. eexists. split.
    + unfold make_lattice_from_cif. rewrite Hg.
      unfold bind at 1. unfold ret at 1.
      unfold bind at 1. rewrite Hr. unfold lift_result, ret at 1.
      unfold bind at 1. rewrite construct_spec, Hc. reflexivity.
    + cbn [latt.unit_cell latt.nodes]. split; [reflexivity|].
      rewrite !map_map. split; reflexivity.
  - intros e Hr. unfold make_lattice_from_cif. rewrite Hg.
    unfold bind at 1. unfold ret at 1.
    unfold bind at 1. rewrite Hr. reflexivity.
Qed.

End Decorations.

Section Diamond.
Context {C : Collab Q}.



End Diamond.

(** ** The command line driver *)

Section MainRun.
Context {F : Type} `{Scalar F} `{Collab F} {U : Unicode} `{Builtins F}.


Ltac main_cases :=
  unfold main, sys_exit, parser_error, bind, lift_result, ret, raise;
  cbv beta iota zeta; cbn [fst snd margin center_zero];
  repeat match goal with
         | |- context [match ?x with _ => _ end] =>
             lazymatch type of x with
             | bool => destruct x
             | result (_ * _) => destruct x as [[? ?]|?]
             | result _ => destruct x
             | (_ * _)%type => destruct x
             | list _ => destruct x
             end;
             cbv beta iota zeta; cbn [fst snd margin center_zero]
         end.

(** X15.  The option [--margin] changes nothing but the periodic box: a
    run with a margin fails exactly when the run without it fails, with the
    same error and the same store, and otherwise returns the model of the
    run without it with ten times the margin added to the three diagonal
    entries of [pbc]; the atoms, the file name and the store are the
    same. *)
Theorem margin_only_widens_pbc mg cz args (s : store) :
  main (mkOptions (Some mg) cz) args s =
  match main (mkOptions None cz) args s with
  | (Ok (config, out), s') =>
      (Ok (with_pbc config (widen_pbc (pbc config) (mg * lit 10)%F), out), s')
  | (Raise e, s') => (Raise e, s')
  end.
Proof. main_cases; reflexivity. Qed.

(** X16.  The option [--center-zero] needs an atom: when the run without
    it returns a model with no atom, the run with it ends in [IndexError]
    (from [config.atoms[0]]); when the model has atoms, each of them is
    shifted by the centre of the bounding box started at the first atom,
    and nothing else of the model changes.  A run that fails without the
    option fails with it in the same way. *)
Theorem center_zero_needs_atoms mg args (s : store) :
  match main (mkOptions mg false) args s with
  | (Raise e, s') => main (mkOptions mg true) args s = (Raise e, s')
  | (Ok (config, out), s') =>
      match atoms config with
      | [] => main (mkOptions mg true) args s = (Raise IndexError, s')
      | first :: _ =>
          let mM := bounding_box (mdprim.pos first) (atoms config) in
          let ctr := vmap (fun x => x / lit 2)%F (vadd (fst mM) (snd mM)) in
          main (mkOptions mg true) args s =
          (Ok (with_atoms config (map (shifted ctr) (atoms config)), out), s')
      end
  end.
Proof.
  unfold main, sys_exit, parser_error, bind, lift_result, ret, raise.
  cbv beta iota zeta. cbn [fst snd margin center_zero].
  destruct (length args =? 1)%nat; [reflexivity|].
  destruct (negb (length args =? 6)%nat); [reflexivity|].
  destruct (get_named_lattice (arg args 1) s) as [[lat|e] s1];
    [|reflexivity].
  destruct (float_of_str (arg args 2)) as [nx|e]; [|reflexivity].
  destruct (float_of_str (arg args 3)) as [ny|e]; [|reflexivity].
  destruct (float_of_str (arg args 4)) as [nz|e]; [|reflexivity].
  destruct (mono lat nx ny nz s1) as [[config|e] s2]; [|reflexivity].
  destruct mg as [mg|]; cbn [atoms with_pbc];
    (destruct (atoms config) as [|first rest] eqn:Ea; [reflexivity|]);
    unfold center_atoms;
    destruct (bounding_box (mdprim.pos first) (first :: rest)) as [m M];
    reflexivity.
Qed.

End MainRun.

(** ** Centring in exact arithmetic *)

Section Centring.

Abbreviation step :=
  (fun (mM : vec Q * vec Q) (atom : mdprim.Atom Q) =>
     (minimum (fst mM) (mdprim.pos atom),
      maximum (snd mM) (mdprim.pos atom))).







End Centring.

(** ** The vertices of the box *)

Section Vertices.
Context {F : Type} `{Scalar F} `{Collab F}.

(** X18.  After a call of [generate_atoms] that returns, [get_vertices]
    gives the eight corners of the box that was filled, the first axis
    varying slowest: a point is a vertex exactly when each of its
    coordinates is the lower or the upper bound of the box on its axis. *)
Theorem vertices_are_corners upper z w c result w' :
  cells w !! unit_cell (self w) = Some c ->
  generate_atoms upper z w = (Ok result, w') ->
  exists vmin vmax,
    fst (get_box_to_fill (dim (self w)) upper z w) = Ok (vmin, vmax) /\
    get_vertices (self w') = box_vertices vmin vmax /\
    length (get_vertices (self w')) = 8%nat /\
    forall v,
      In v (get_vertices (self w')) <->
      (v0 v = v0 vmin \/ v0 v = v0 vmax) /\
      (v1 v = v1 vmin \/ v1 v = v1 vmax) /\
      (v2 v = v2 vmin \/ v2 v = v2 vmax).
Proof.
  intros Hc E.
  destruct (fst (get_box_to_fill (dim (self w)) upper z w))
    as [[vmin vmax]|e] eqn:Eb.
  2: { rewrite (generate_atoms_raises upper z w e Eb) in E. discriminate E. }
  rewrite (generate_atoms_spec upper z w c vmin vmax Hc Eb) in E.
  injection E as _ <-. exists vmin, vmax. split; [reflexivity|].
  assert (Ev : get_vertices (self (generated c vmin vmax w))
               = box_vertices vmin vmax) by reflexivity.
  rewrite Ev. split; [reflexivity|]. split; [reflexivity|].
  intros [x y t]. unfold box_vertices. cbn [In v0 v1 v2]. split.
  - intros Hin.
    repeat (destruct Hin as [Hin|Hin];
            [injection Hin as <- <- <-; auto|]).
    destruct Hin.
  - intros ([->| ->] & [->| ->] & [->| ->]); auto 10.
Qed.

End Vertices.

(* ===================================================================== *)
(** * The further properties at work                                      *)
(* ===================================================================== *)

Lemma binary_factories_check_arity_witness :
  length ["Na"] <> 2%nat /\
  make_nacl_lattice (F:=Q) ["Na"] (lit 5.64) ∅ = (Raise AssertionError, ∅).
Proof.
  assert (Hn : length ["Na"] <> 2%nat) by discriminate.
  split; [exact Hn|].
  destruct (binary_factories_check_arity (F:=Q) ["Na"] (lit 5.64) (lit 0)
              (lit 0) (lit 0) EmptyString ∅ Hn) as (_ & _ & _ & _ & _ & E & _).
  exact E.
Defined.

Lemma quaternary_factories_check_arity_witness :
  length ["Cu"; "Zn"; "Sn"] <> 4%nat /\
  make_kesterite_structure (F:=Q) ["Cu"; "Zn"; "Sn"] (lit 5.4) (lit 5.4) (lit 10.8) ∅
    = (Raise AssertionError, ∅).
Proof.
  assert (Hn : length ["Cu"; "Zn"; "Sn"] <> 4%nat) by discriminate.
  split; [exact Hn|].
  exact (proj1 (quaternary_factories_check_arity (F:=Q) ["Cu"; "Zn"; "Sn"]
                  (lit 5.4) (lit 5.4) (lit 10.8) ∅ Hn)).
Defined.

Lemma sic_polytype_is_lowercased_witness :
  startswith (lower "SiC:ABABC") "sic:" = true /\
  endswith "SiC:ABABC" ".cif" = false /\
  get_named_lattice (F:=Q) "SiC:ABABC" ∅ =
  make_sic_polytype_lattice ["Si"; "C"] (lit 3.073) (lit 2.52) "ababc" ∅.
Proof.
  split; [reflexivity|]. split; [reflexivity|].
  exact (sic_polytype_is_lowercased (F:=Q) "SiC:ABABC" ∅ eq_refl eq_refl).
Defined.

(** With generators that answer, the factories raise
    [ZeroDivisionError] on the empty stacking sequence, after the cell has
    been allocated. *)
Lemma empty_polytype_never_builds_witness :
  @latt_generate_polytype Q stack_collab (lit 3.073) (lit 2.52) EmptyString
    = Ok (ortho_cell 3.073 3.073 2.52, [V3 0 0 0])%Q /\
  @make_sic_polytype_lattice Q Q_scalar stack_collab ["Si"; "C"]
      (lit 3.073) (lit 2.52) EmptyString ∅
    = (Raise ZeroDivisionError,
       {[ 1%positive := (ortho_cell 3.073 3.073 2.52)%Q ]}).
Proof.
  split; [reflexivity|].
  destruct (@empty_polytype_never_builds Q Q_scalar stack_collab latin_unicode
              latin_laws)
    as (_ & _ & _ & _ & Hz).
  rewrite (Hz (lit 3.073) (lit 2.52) ∅ _ _ eq_refl). vm_compute. reflexivity.
Defined.

(** The lookup of [Mg] with generators that answer: a lattice whose atoms
    are of species [M]. *)
Lemma hexagonal_species_is_first_char_witness :
  match @get_named_lattice Q Q_scalar stack_collab latin_unicode "Mg" ∅ with
  | (Ok lat, _) =>
      map (fun node => map latt.name (latt.atoms_in_node node))
          (latt.nodes lat) = [["M"; "M"]] /\
      forall node atom,
        In node (latt.nodes lat) ->
        In atom (latt.atoms_in_node node) ->
        latt.name atom = "M"
  | (Raise _, _) => False
  end.
Proof.
  destruct (@get_named_lattice Q Q_scalar stack_collab latin_unicode "Mg" ∅)
    as [[lat|e] s'] eqn:E.
  2: { vm_compute in E. discriminate E. }
  split.
  - vm_compute in E. injection E as <- _. reflexivity.
  - exact (proj2 (@hexagonal_species_is_first_char Q Q_scalar stack_collab
                    latin_unicode latin_laws)
             "Mg" ∅ s' lat eq_refl E).
Defined.

Lemma lookups_share_no_cell_witness :
  match get_named_lattice (F:=Q) "NaCl" ∅ with
  | (Ok lat1, s1) =>
      match get_named_lattice (F:=Q) "Po" s1 with
      | (Ok lat2, s2) =>
          latt.unit_cell lat1 <> latt.unit_cell lat2 /\
          s2 !! latt.unit_cell lat1 = s1 !! latt.unit_cell lat1
      | (Raise _, _) => False
      end
  | (Raise _, _) => False
  end.
Proof.
  destruct (get_named_lattice (F:=Q) "NaCl" ∅) as [[lat1|e] s1] eqn:E1.
  2: { vm_compute in E1. discriminate E1. }
  destruct (get_named_lattice (F:=Q) "Po" s1) as [[lat2|e] s2] eqn:E2.
  2: { vm_compute in E1. injection E1 as _ <-.
       vm_compute in E2. discriminate E2. }
  destruct (lookups_share_no_cell "NaCl" "Po" ∅ s1 s2 lat1 lat2 E1 E2)
    as (Hne & _ & Hsame & _).
  split; [exact Hne|exact Hsame].
Defined.

Lemma generate_atoms_repeatable_witness :
  let w := po_world None in
  cells w !! unit_cell (self w) = Some po_cell /\
  rot_mat (self w) = None /\
  generate_atoms None_ (lit 0) (snd (generate_atoms None_ (lit 0) w))
  = generate_atoms None_ (lit 0) w.
Proof.
  intros w. split; [reflexivity|]. split; [reflexivity|].
  exact (generate_atoms_repeatable None_ (lit 0) w po_cell eq_refl eq_refl).
Defined.

Lemma mono_atoms_in_box_witness :
  match mono po_lattice 1%Q 1%Q 1%Q po_store with
  | (Ok config, _) =>
      length (atoms config) = 27%nat /\
      forall a,
        In a (atoms config) ->
        half_open (full_vmin (dim config)) (full_vmax (dim config))
                  (mdprim.pos a) = true
  | (Raise _, _) => False
  end.
Proof.
  pose proof (mono_spec po_lattice 1%Q 1%Q 1%Q po_store po_cell eq_refl)
    as E.
  cbv zeta in E.
  destruct (mono_atoms_in_box po_lattice 1%Q 1%Q 1%Q po_store _ _ E)
    as (c & _ & _ & _ & _ & _ & Hbox).
  rewrite E. split; [vm_compute; reflexivity|exact Hbox].
Defined.




Lemma quaternary_stoichiometry_witness :
  List.NoDup ["Cu"; "Zn"; "Sn"; "S"] /\
  match make_kesterite_structure (F:=Q) ["Cu"; "Zn"; "Sn"; "S"]
          (lit 5.4) (lit 5.4) (lit 10.8) ∅ with
  | (Ok lat, _) =>
      length (latt.nodes lat) = 2%nat /\
      forall node,
        In node (latt.nodes lat) ->
        length (latt.atoms_in_node node) = 16%nat /\
        node_count "Cu" node = 4%nat /\
        node_count "Zn" node = 2%nat /\
        node_count "Sn" node = 2%nat /\
        node_count "S" node = 8%nat
  | (Raise _, _) => False
  end.
Proof.
  assert (Hnd : List.NoDup ["Cu"; "Zn"; "Sn"; "S"]).
  { repeat constructor; cbn [In]; intuition discriminate. }
  split; [exact Hnd|].
  destruct (make_kesterite_structure (F:=Q) ["Cu"; "Zn"; "Sn"; "S"]
              (lit 5.4) (lit 5.4) (lit 10.8) ∅) as [[lat|e] s'] eqn:E.
  2: { vm_compute in E. discriminate E. }
  destruct (quaternary_stoichiometry "Cu" "Zn" "Sn" "S"
              (lit 5.4) (lit 5.4) (lit 10.8) ∅ s' lat Hnd (or_introl E))
    as [Hlen Hall].
  split; [rewrite Hlen; reflexivity|exact Hall].
Defined.

Lemma cif_needs_gemmi_witness :
  @gemmi_installed Q ref_collab = false /\
  endswith "quartz.cif" ".cif" = true /\
  get_named_lattice (F:=Q) "quartz.cif" ∅
    = (Raise (SystemExit gemmi_needed), ∅).
Proof.
  split; [reflexivity|]. split; [reflexivity|].
  exact (proj1 (cif_needs_gemmi (F:=Q) "quartz.cif" ∅ eq_refl eq_refl)).
Defined.

Lemma cif_lattice_structure_witness :
  @gemmi_installed Q cif_collab = true /\
  @read_atomic_structure Q cif_collab "po.cif" = Ok po_cif /\
  exists lat,
    @make_lattice_from_cif Q Q_scalar cif_collab "po.cif" ∅
      = (Ok lat, {[ 1%positive := po_cell ]}) /\
    map latt.pos_in_cell (latt.nodes lat) = [V3 0 0 0]%Q /\
    map latt.atoms_in_node (latt.nodes lat)
      = [[latt.mkAtomInNode "Po" (V3 0 0 0)%Q]].
Proof.
  split; [reflexivity|]. split; [reflexivity|].
  destruct (proj1 (@cif_lattice_structure Q Q_scalar cif_collab "po.cif" ∅
                     eq_refl) po_cif po_cell eq_refl eq_refl)
    as (lat & E & _ & Hpos & Hat).
  exists lat. split; [exact E|]. split; [exact Hpos|exact Hat].
Defined.



(** A run of [main] on polonium with a margin of one: the atoms are the 27
    of the run without margin, the periodic box is wider. *)
Lemma margin_only_widens_pbc_witness :
  let args := ["monocryst.py"; "Po"; "1"; "1"; "1"; "po.xyz"] in
  match @main Q Q_scalar ref_collab latin_unicode digits_builtins
          (mkOptions None false) args ∅ with
  | (Ok (config, out), s') =>
      @main Q Q_scalar ref_collab latin_unicode digits_builtins
        (mkOptions (Some 1%Q) false) args ∅
      = (Ok (with_pbc config (widen_pbc (pbc config) (1%Q * lit 10)%F), out),
         s') /\
      length (atoms config) = 27%nat
  | (Raise _, _) => False
  end.
Proof.
  intros args.
  pose proof (@margin_only_widens_pbc Q Q_scalar ref_collab latin_unicode digits_builtins
                1%Q false args ∅) as E.
  assert (Hrun : match fst (@main Q Q_scalar ref_collab latin_unicode digits_builtins
                              (mkOptions None false) args ∅) with
                 | Ok (config, _) => (length (atoms config) =? 27)%nat
                 | Raise _ => false
                 end = true) by (vm_compute; reflexivity).
  revert E Hrun.
  destruct (@main Q Q_scalar ref_collab latin_unicode digits_builtins
              (mkOptions None false) args ∅) as [[[config out]|e] s'];
    cbn [fst]; intros E Hrun; [|discriminate Hrun].
  split; [exact E|now apply Nat.eqb_eq].
Defined.

(** A run of [main] on a CIF file without sites, with [--center-zero]: the
    model has no atom and the run ends in [IndexError]. *)
Lemma center_zero_needs_atoms_witness :
  let args := ["monocryst.py"; "empty.cif"; "1"; "1"; "1"; "out.xyz"] in
  match @main Q Q_scalar empty_cif_collab latin_unicode digits_builtins
          (mkOptions None false) args ∅ with
  | (Ok (config, _), s') =>
      atoms config = [] /\
      @main Q Q_scalar empty_cif_collab latin_unicode digits_builtins
        (mkOptions None true) args ∅ = (Raise IndexError, s')
  | (Raise _, _) => False
  end.
Proof.
  intros args.
  pose proof (@center_zero_needs_atoms Q Q_scalar empty_cif_collab latin_unicode
                digits_builtins None args ∅) as E.
  assert (Hrun : match fst (@main Q Q_scalar empty_cif_collab latin_unicode digits_builtins
                              (mkOptions None false) args ∅) with
                 | Ok (config, _) =>
                     match atoms config with [] => true | _ => false end
                 | Raise _ => false
                 end = true) by (vm_compute; reflexivity).
  revert E Hrun.
  destruct (@main Q Q_scalar empty_cif_collab latin_unicode digits_builtins
              (mkOptions None false) args ∅) as [[[config out]|e] s'];
    cbn [fst]; intros E Hrun; [|discriminate Hrun].
  revert E Hrun. destruct (atoms config) as [|a l]; intros E Hrun;
    [|discriminate Hrun].
  split; [reflexivity|exact E].
Defined.


Lemma vertices_are_corners_witness :
  let w := po_world None in
  cells w !! unit_cell (self w) = Some po_cell /\
  match generate_atoms None_ (lit 0) w with
  | (Ok _, w') =>
      get_vertices (self w')
      = box_vertices (full_vmin po_dim) (full_vmax po_dim)
  | (Raise _, _) => False
  end.
Proof.
  intros w. split; [reflexivity|].
  pose proof (generate_atoms_spec None_ (lit 0) w po_cell
                (full_vmin po_dim) (full_vmax po_dim) eq_refl eq_refl) as E.
  destruct (vertices_are_corners None_ (lit 0) w po_cell _ _ eq_refl E)
    as (vmin & vmax & Eb & Ev & _).
  rewrite E. rewrite Ev. injection Eb as <- <-. reflexivity.
Defined.
